(** * Website-Analysis: the analysis core of [website_analyzer.py] and
    [itc_website_analyzer.py]

    The two Streamlit scripts share five helper functions
    ([extract_meta_tags], [extract_headings], [extract_keywords],
    [analyze_links], [analyze_images]) and differ in the SEO checklist and in
    the shape of the recommendations.  This development embeds the helpers,
    the checklist of both scripts and the recommendation rules, and states the
    properties of the specification over them.

    Modelling conventions.
    - A Python [str] is a [string]; a character is a code point below 256.
    - A Python [int] is a [Z]; a [float] is an IEEE 754 binary64 value
      ([spec_float] at precision 53), with the rounding of every operation.
    - A [dict] whose keys are looked up is a [gmap]; the [Counter], whose
      iteration order decides ties, is an insertion-ordered association list;
      the dictionaries with a fixed set of keys are records.
    - A parsed document is a tree of tags and strings; the BeautifulSoup
      queries the scripts use are functions on that tree.
    - [urljoin] and [urlparse] belong to the Python library and are taken as
      an interface. *)

From Stdlib Require Import ZArith QArith Qabs List String Ascii DecimalString Sorted Permutation Lia.
From Stdlib Require Import Floats.SpecFloat.
From stdpp Require Import base option list list_monad sorting gmap strings fin_maps fin_sets.

#[local] Set Warnings "-register-all".
#[local] Open Scope string_scope.
#[local] Open Scope list_scope.
#[local] Open Scope Z_scope.

(** ** Python strings *)

Module Py.

Definition chars (s : string) : list ascii := list_ascii_of_string s.
Definition str (cs : list ascii) : string := string_of_list_ascii cs.

(** [len(s)] *)
Definition len (s : string) : Z := Z.of_nat (String.length s).

Definition ord (c : ascii) : N := N_of_ascii c.

(** [str.isspace] on one character, which is also the class [\s] of [re] on
    [str] patterns and the separator set of [str.split()] and [str.strip()]:
    TAB..CR, FS..US, SPACE, NEL and NBSP among the code points below 256. *)
Definition isspace (c : ascii) : bool :=
  let n := ord c in
  ((9 <=? n) && (n <=? 13) || (28 <=? n) && (n <=? 32) || (n =? 133) || (n =? 160))%N.

Definition is_ascii_upper (c : ascii) : bool := ((65 <=? ord c) && (ord c <=? 90))%N.
Definition is_ascii_lower (c : ascii) : bool := ((97 <=? ord c) && (ord c <=? 122))%N.

(** The class [a-zA-Z] of the regular expression. *)
Definition is_ascii_letter (c : ascii) : bool := is_ascii_lower c || is_ascii_upper c.

(** Upper-case letters of the Latin-1 supplement: U+00C0..U+00DE without the
    multiplication sign U+00D7. *)
Definition is_latin1_upper (c : ascii) : bool :=
  ((192 <=? ord c) && (ord c <=? 222) && negb (ord c =? 215))%N.

(** [str.lower] on one character. *)
Definition lower_char (c : ascii) : ascii :=
  if is_ascii_upper c || is_latin1_upper c then ascii_of_N (ord c + 32) else c.

(** [s.lower()] *)
Definition lower (s : string) : string := str (map lower_char (chars s)).

Fixpoint lstrip_chars (cs : list ascii) : list ascii :=
  match cs with
  | c :: cs' => if isspace c then lstrip_chars cs' else cs
  | [] => []
  end.

(** [s.strip()] *)
Definition strip (s : string) : string :=
  str (rev (lstrip_chars (rev (lstrip_chars (chars s))))).

(** [s.split()]: the maximal runs of non-space characters, in order.  [cur]
    holds the run being read, last character first. *)
Fixpoint split_go (cur cs : list ascii) : list string :=
  match cs with
  | [] => match cur with [] => [] | _ => [str (rev cur)] end
  | c :: cs' =>
      if isspace c then
        match cur with
        | [] => split_go [] cs'
        | _ => str (rev cur) :: split_go [] cs'
        end
      else split_go (c :: cur) cs'
  end.

Definition split (s : string) : list string := split_go [] (chars s).

(** [s.startswith(p)] *)
Definition startswith (s p : string) : bool := String.prefix p s.

(** [str(n)] and the f-string field [{n}] of an [int]. *)
Definition str_of_int (n : Z) : string := NilZero.string_of_int (Z.to_int n).

(** Truth value of an optional string ([None] and [''] are falsy). *)
Definition truthy (v : option string) : bool :=
  match v with
  | Some s => negb (String.eqb s "")
  | None => false
  end.

(** [str.upper] on one character.  The result of Python has two characters
    for U+00DF and leaves the code points below 256 for U+00B5 and U+00FF:
    [None] there. *)
Definition upper_char (c : ascii) : option (list ascii) :=
  let n := ord c in
  if ((97 <=? n) && (n <=? 122))%N then Some [ascii_of_N (n - 32)]
  else if ((224 <=? n) && (n <=? 254) && negb (n =? 247))%N then Some [ascii_of_N (n - 32)]
  else if (n =? 223)%N then Some ["S"%char; "S"%char]
  else if ((n =? 181) || (n =? 255))%N then None
  else Some [c].

(** [s.upper()], when the result stays below code point 256. *)
Definition upper (s : string) : option string :=
  cs ← mapM upper_char (chars s); Some (str (concat cs)).

(** [l] starts with [p]. *)
Fixpoint starts_with (p l : list ascii) : bool :=
  match p, l with
  | [], _ => true
  | a :: p', b :: l' => Ascii.eqb a b && starts_with p' l'
  | _ :: _, [] => false
  end.

(** The scan of [str.replace] for a non-empty [old]: [skip] characters of a
    match are still to be dropped. *)
Fixpoint replace_go (old new : list ascii) (skip : nat) (cs : list ascii) : list ascii :=
  match cs with
  | [] => []
  | c :: cs' =>
      match skip with
      | S k => replace_go old new k cs'
      | O =>
          if starts_with old cs then new ++ replace_go old new (length old - 1) cs'
          else c :: replace_go old new 0 cs'
      end
  end.

(** [s.replace(old, new)]: every occurrence, leftmost first, without
    overlap.  With an empty [old], [new] goes before every character and at
    the end. *)
Definition replace (s old new : string) : string :=
  match chars old with
  | [] => str (flat_map (fun c => chars new ++ [c]) (chars s) ++ chars new)
  | _ => str (replace_go (chars old) (chars new) 0 (chars s))
  end.

(** The scan of [str.split(sep)] for a non-empty [sep]; [cur] holds the
    field being read, last character first. *)
Fixpoint split_sep_go (sep : list ascii) (skip : nat) (cur cs : list ascii) : list string :=
  match cs with
  | [] => [str (rev cur)]
  | c :: cs' =>
      match skip with
      | S k => split_sep_go sep k cur cs'
      | O =>
          if starts_with sep cs then str (rev cur) :: split_sep_go sep (length sep - 1) [] cs'
          else split_sep_go sep 0 (c :: cur) cs'
      end
  end.

(** [s.split(sep)]: the fields between the occurrences of [sep], empty
    fields included; [None] is the [ValueError] for an empty separator. *)
Definition split_sep (s sep : string) : option (list string) :=
  match chars sep with
  | [] => None
  | _ => Some (split_sep_go (chars sep) 0 [] (chars s))
  end.

End Py.

(** ** Python floats: IEEE 754 binary64 *)

Module PyFloat.

Definition prec : Z := 53.
Definition emax : Z := 1024.

Definition float : Type := spec_float.

(** [float(n)] for an [int]: the nearest double, ties to even.  Python raises
    [OverflowError] beyond the largest double; every integer converted below
    is a list length or a constant. *)
Definition of_int (n : Z) : float := binary_normalize prec emax n 0 false.

(** [x * y] on floats. *)
Definition mul (x y : float) : float := SFmul prec emax x y.

(** [a / b] on two [int]s (true division), correctly rounded.  Both operands
    are converted first, which is exact below [2^53]. *)
Definition int_truediv (a b : Z) : float := SFdiv prec emax (of_int a) (of_int b).

(** The literal [0.7]: the double nearest to seven tenths. *)
Definition lit_0_7 : float := S754_finite false 6305039478318694 (-53).

(** The two integers [(n, d)] with [x = n / d] and [d] a power of two, for a
    finite [x]. *)
Definition as_ratio (x : float) : option (Z * Z) :=
  match x with
  | S754_zero _ => Some (0, 1)
  | S754_finite s m e =>
      let n := if s then Z.neg m else Z.pos m in
      if 0 <=? e then Some (n * 2 ^ e, 1) else Some (n, 2 ^ (- e))
  | _ => None
  end.

(** [a > x] for an [int] [a] and a float [x]: Python compares the two
    numbers exactly, without rounding [a]. *)
Definition int_gt (a : Z) (x : float) : bool :=
  match x with
  | S754_nan => false
  | S754_infinity s => s
  | _ => match as_ratio x with
         | Some (n, d) => n <? a * d
         | None => false
         end
  end.

(** [x > a] for a float [x] and an [int] [a]. *)
Definition gt_int (x : float) (a : Z) : bool :=
  match x with
  | S754_nan => false
  | S754_infinity s => negb s
  | _ => match as_ratio x with
         | Some (n, d) => a * d <? n
         | None => false
         end
  end.

(** [x <= y] on floats. *)
Definition le (x y : float) : bool := SFleb x y.

(** The rational number a finite float denotes (0 for the others). *)
Definition to_Q (x : float) : Q :=
  match as_ratio x with
  | Some (n, d) => Qmake n (Z.to_pos d)
  | None => 0%Q
  end.

Definition is_finite (x : float) : bool :=
  match x with
  | S754_zero _ | S754_finite _ _ _ => true
  | _ => false
  end.

(** [x < a] and [x >= a] for a float [x] and an [int] [a]. *)
Definition lt_int (x : float) (a : Z) : bool :=
  match x with
  | S754_nan => false
  | S754_infinity s => s
  | _ => match as_ratio x with
         | Some (n, d) => n <? a * d
         | None => false
         end
  end.

Definition ge_int (x : float) (a : Z) : bool :=
  match x with
  | S754_nan => false
  | S754_infinity s => negb s
  | _ => match as_ratio x with
         | Some (n, d) => a * d <=? n
         | None => false
         end
  end.

(** The integer nearest to [n / d], ties to the even one, for [d > 0]. *)
Definition round_half_even (n d : Z) : Z :=
  let q := n / d in
  let r := n mod d in
  if 2 * r <? d then q
  else if d <? 2 * r then q + 1
  else if Z.even q then q else q + 1.

Definition sign_bit (x : float) : bool :=
  match x with
  | S754_zero s | S754_infinity s | S754_finite s _ _ => s
  | S754_nan => false
  end.

(** [f"{x:.0f}"]: the decimal digits of the integer nearest to [x], ties to
    even, after a minus sign when the sign bit is set. *)
Definition format_0f (x : float) : string :=
  let sign := if sign_bit x then "-" else "" in
  match x with
  | S754_nan => "nan"
  | S754_infinity _ => sign +:+ "inf"
  | _ => match as_ratio x with
         | Some (n, d) => sign +:+ Py.str_of_int (round_half_even (Z.abs n) d)
         | None => ""
         end
  end.

End PyFloat.

(** ** The parsed document *)

Module Bs4.

(** The tree [BeautifulSoup(content, 'html.parser')] builds.  [Comment]
    stands for every string that is not plain text (comments, doctype,
    declarations): [Tag.text] skips it.  The attributes of a tag are a
    dictionary from names to values. *)
Inductive node : Type :=
| NavigableString (s : string)
| Comment (s : string)
| Tag (name : string) (attrs : gmap string string) (contents : list node).

(** The soup object: the top-level contents of the document. *)
Definition soup : Type := list node.

(** [tag.descendants]: the nodes below a tag, in document order. *)
Fixpoint descendants (n : node) : list node :=
  match n with
  | Tag _ _ contents => flat_map (fun c => c :: descendants c) contents
  | _ => []
  end.

Definition soup_descendants (doc : soup) : list node :=
  flat_map (fun c => c :: descendants c) doc.

Definition is_tag (nm : string) (n : node) : bool :=
  match n with
  | Tag nm' _ _ => String.eqb nm' nm
  | _ => false
  end.

(** [tag.get(key)]: the value of an attribute, [None] when absent. *)
Definition get (n : node) (key : string) : option string :=
  match n with
  | Tag _ attrs _ => attrs !! key
  | _ => None
  end.

(** [tag.text]: the plain strings below the tag, concatenated. *)
Fixpoint text (n : node) : string :=
  match n with
  | NavigableString s => s
  | Comment _ => ""
  | Tag _ _ contents => String.concat "" (map text contents)
  end.

(** [soup.find_all(nm)] *)
Definition find_all (doc : soup) (nm : string) : list node :=
  List.filter (is_tag nm) (soup_descendants doc).

(** [soup.find_all(nm, key=True)]: the tags that carry the attribute. *)
Definition find_all_with (doc : soup) (nm key : string) : list node :=
  List.filter (fun t => bool_decide (is_Some (get t key))) (find_all doc nm).

(** [soup.find(nm)]: the first match, or [None]. *)
Definition find (doc : soup) (nm : string) : option node :=
  head (find_all doc nm).

(** [soup.find(nm, attrs={key: value})] and [soup.find(nm, key=value)]. *)
Definition find_attr (doc : soup) (nm key value : string) : option node :=
  head (List.filter (fun t => bool_decide (get t key = Some value)) (find_all doc nm)).

End Bs4.

(** ** [collections.Counter] *)

Module Counter.

(** A counter in insertion order: one entry per distinct element, in the
    order of first occurrence. *)
Definition t : Type := list (string * Z).

(** [c[w] += 1] *)
Fixpoint incr (c : t) (w : string) : t :=
  match c with
  | [] => [(w, 1)]
  | (k, n) :: c' => if String.eqb k w then (k, n + 1) :: c' else (k, n) :: incr c' w
  end.

(** [Counter(words)] *)
Definition of_list (words : list string) : t := foldl incr [] words.

(** Insertion into a list sorted by decreasing count, before the first entry
    whose count is not larger. *)
Fixpoint insert_desc (x : string * Z) (l : t) : t :=
  match l with
  | [] => [x]
  | y :: l' => if y.2 <=? x.2 then x :: l else y :: insert_desc x l'
  end.

(** [sorted(c.items(), key=itemgetter(1), reverse=True)]: a stable sort, so
    entries of equal count keep their insertion order. *)
Definition sorted_desc (c : t) : t := foldr insert_desc [] c.

(** [c.most_common(n)], that is [heapq.nlargest(n, c.items(),
    key=itemgetter(1))], which the library documents as the first [n] entries
    of the sort above.  [n] is a count. *)
Definition most_common (c : t) (n : nat) : t := take n (sorted_desc c).

End Counter.

(** ** [urllib.parse] *)

(** The part of the result of [urlparse] the scripts read. *)
Record ParseResult : Type := { netloc : string }.

(** [urljoin] and [urlparse]; [None] is the [ValueError] both raise on a
    malformed authority. *)
Class Urllib : Type := {
  urljoin : string -> string -> option string;
  urlparse : string -> option ParseResult
}.

(** The component [path] of the result of [urlparse], which
    [get_domain_name] reads beside [netloc]. *)
Class UrllibPath : Type := {
  urlparse_path : string -> option string
}.

(** ** The helper functions shared by the two scripts *)

Import Bs4.

Record MetaData : Type := {
  title : string;
  title_length : Z;
  description : string;
  description_length : Z;
  meta_keywords : string;
  og_title : string;
  og_description : string
}.

Record ImageStats : Type := {
  total : Z;
  with_alt : Z;
  without_alt : Z
}.

(** [tag['content'] if tag and tag.get('content') else sentinel]: a tag is
    always truthy, so the guard is on the tag being found and on its
    [content] attribute being present and non-empty. *)
Definition content_or (tag : option node) (sentinel : string) : string :=
  match tag with
  | Some t =>
      if Py.truthy (get t "content") then default sentinel (get t "content")
      else sentinel
  | None => sentinel
  end.

Definition extract_meta_tags (soup : soup) : MetaData :=
  let title := find soup "title" in
  let meta_title :=
    match title with
    | Some t => Py.strip (text t)
    | None => "No title found"
    end in
  let desc := find_attr soup "meta" "name" "description" in
  let meta_description := content_or desc "No description found" in
  let keywords := find_attr soup "meta" "name" "keywords" in
  let og_title := find_attr soup "meta" "property" "og:title" in
  let og_desc := find_attr soup "meta" "property" "og:description" in
  {| title := meta_title;
     title_length := Py.len meta_title;
     description := meta_description;
     description_length := Py.len meta_description;
     meta_keywords := content_or keywords "No keywords found";
     og_title := content_or og_title "Not set";
     og_description := content_or og_desc "Not set" |}.

(** The key [f'h{i}']. *)
Definition heading_key (i : Z) : string := "h" +:+ Py.str_of_int i.

(** The loop body of [extract_headings]. *)
Definition headings_step (soup : soup) (headings : gmap string (list string)) (i : Z)
  : gmap string (list string) :=
  let tags := find_all soup (heading_key i) in
  <[heading_key i := map (fun tag => Py.strip (text tag)) tags]> headings.

(** [for i in range(1, 7)] *)
Definition extract_headings (soup : soup) : gmap string (list string) :=
  foldl (headings_step soup) ∅ (seqZ 1 6).

Definition stop_words : gset string :=
  {[ "the"; "a"; "an"; "and"; "or"; "but"; "in"; "on"; "at"; "to"; "for";
     "of"; "with"; "is"; "was"; "are"; "be"; "been"; "have"; "has"; "had";
     "do"; "does"; "did"; "will"; "would"; "could"; "should"; "may"; "might";
     "this"; "that"; "these"; "those"; "it"; "its"; "from"; "by"; "as" ]}.

(** [re.sub(r'[^a-zA-Z\s]', '', s)] *)
Definition re_sub_non_letters (s : string) : string :=
  Py.str (List.filter (fun c => Py.is_ascii_letter c || Py.isspace c) (Py.chars s)).

(** The condition of the list comprehension:
    [word not in stop_words and len(word) > 3]. *)
Definition is_keyword (word : string) : bool :=
  negb (bool_decide (word ∈ stop_words)) && (3 <? Py.len word).

(** The list [words] of [extract_keywords]. *)
Definition keyword_words (text : string) : list string :=
  let text := re_sub_non_letters (Py.lower text) in
  List.filter is_keyword (Py.split text).

(** [top_n] is a number of entries. *)
Definition extract_keywords (text : string) (top_n : nat) : list (string * Z) :=
  let words := keyword_words text in
  let word_freq := Counter.of_list words in
  Counter.most_common word_freq top_n.

(** The call [extract_keywords(text_content)] of the two scripts, with the
    default [top_n=20]. *)
Definition extract_keywords_default (text : string) : list (string * Z) :=
  extract_keywords text 20.

(** The loop of [analyze_links] over the anchors still to visit, with the two
    lists built so far. *)
Fixpoint analyze_links_loop `{Urllib} (base_url base_domain : string)
    (links : list node) (internal_links external_links : list string)
  : option (list string * list string) :=
  match links with
  | [] => Some (internal_links, external_links)
  | link :: links' =>
      href ← get link "href";
      full_url ← urljoin base_url href;
      parsed ← urlparse full_url;
      if bool_decide (netloc parsed = base_domain) || bool_decide (netloc parsed = "")
      then analyze_links_loop base_url base_domain links' (internal_links ++ [full_url]) external_links
      else analyze_links_loop base_url base_domain links' internal_links (external_links ++ [full_url])
  end.

Definition analyze_links `{Urllib} (soup : soup) (base_url : string)
  : option (list string * list string) :=
  let links := find_all_with soup "a" "href" in
  base ← urlparse base_url;
  analyze_links_loop base_url (netloc base) links [] [].

(** [sum(xs)] *)
Definition sum (xs : list Z) : Z := foldl Z.add 0 xs.

Definition analyze_images (soup : soup) : ImageStats :=
  let images := find_all soup "img" in
  let total_images := Z.of_nat (length images) in
  let images_with_alt :=
    sum (map (fun _ => 1) (List.filter (fun img => Py.truthy (get img "alt")) images)) in
  let images_without_alt := total_images - images_with_alt in
  {| total := total_images;
     with_alt := images_with_alt;
     without_alt := images_without_alt |}.

(** ** The SEO checklist and the score *)

(** [a <= x <= b] on [int]s. *)
Definition between (a x b : Z) : bool := (a <=? x) && (x <=? b).

(** The loop [for check, passed in checks.items(): if passed: score += 1]. *)
Definition count_passed (checks : list (string * bool)) : Z :=
  foldl (fun score '(_, passed) => if passed : bool then score + 1 else score) 0 checks.

Definition total_checks : Z := 6.

(** [(score / total_checks) * 100] *)
Definition percentage (score : Z) : PyFloat.float :=
  PyFloat.mul (PyFloat.int_truediv score total_checks) (PyFloat.of_int 100).

(** [website_analyzer.py] *)
Module WebsiteAnalyzer.

(** The last entry of the checklist:
    [with_alt > total * 0.7 if total > 0 else False]. *)
Definition images_have_alt (image_data : ImageStats) : bool :=
  if 0 <? total image_data
  then PyFloat.int_gt (with_alt image_data) (PyFloat.mul (PyFloat.of_int (total image_data)) PyFloat.lit_0_7)
  else false.

(** The dictionary [checks], in insertion order. *)
Definition checks (meta_data : MetaData) (image_data : ImageStats) (website_url : string)
  : list (string * bool) :=
  [ ("Title tag present", negb (String.eqb (title meta_data) "No title found"));
    ("Title length optimal", between 30 (title_length meta_data) 60);
    ("Meta description present", negb (String.eqb (description meta_data) "No description found"));
    ("Description length optimal", between 120 (description_length meta_data) 160);
    ("SSL enabled", Py.startswith website_url "https");
    ("Images have alt tags", images_have_alt image_data) ].

Definition seo_score (meta_data : MetaData) (image_data : ImageStats) (website_url : string)
  : PyFloat.float :=
  percentage (count_passed (checks meta_data image_data website_url)).

Inductive Priority : Type := Critical | High | Medium | Low.

Record Recommendation : Type := {
  priority : Priority;
  category : string;
  issue : string;
  recommendation : string
}.

Definition rec_title : Recommendation :=
  {| priority := High; category := "SEO"; issue := "Title Tag Length";
     recommendation := "Optimize title tag length to 30-60 characters for better search visibility" |}.

Definition rec_description : Recommendation :=
  {| priority := High; category := "SEO"; issue := "Meta Description Length";
     recommendation := "Optimize meta description to 120-160 characters" |}.

Definition rec_h1 : Recommendation :=
  {| priority := Critical; category := "Content"; issue := "Missing H1 Tags";
     recommendation := "Add H1 tags to your pages - crucial for SEO" |}.

Definition rec_alt (n : Z) : Recommendation :=
  {| priority := Medium; category := "Accessibility";
     issue := Py.str_of_int n +:+ " Images Without Alt Text";
     recommendation := "Add descriptive alt text to all images for better SEO and accessibility" |}.

Definition rec_load : Recommendation :=
  {| priority := High; category := "Performance"; issue := "Slow Page Load Time";
     recommendation := "Optimize page load time to under 3 seconds (consider image compression, caching, CDN)" |}.

Definition rec_ssl : Recommendation :=
  {| priority := Critical; category := "Security"; issue := "No SSL Certificate";
     recommendation := "Implement SSL certificate (HTTPS) immediately for security and SEO" |}.

(** [if cond: recommendations.append(r)] *)
Definition append_if (cond : bool) (r : Recommendation) (recommendations : list Recommendation)
  : list Recommendation :=
  if cond then recommendations ++ [r] else recommendations.

(** The list [recommendations] of the last tab.  [headings['h1']] raises
    [KeyError] on a dictionary without that key: [None]. *)
Definition recommendations (meta_data : MetaData) (headings : gmap string (list string))
    (image_data : ImageStats) (load_time : PyFloat.float) (website_url : string)
  : option (list Recommendation) :=
  let recommendations := [] in
  let recommendations :=
    append_if (negb (between 30 (title_length meta_data) 60)) rec_title recommendations in
  let recommendations :=
    append_if (negb (between 120 (description_length meta_data) 160)) rec_description recommendations in
  h1 ← headings !! "h1";
  let recommendations :=
    append_if (bool_decide (h1 = [])) rec_h1 recommendations in
  let recommendations :=
    append_if (0 <? without_alt image_data) (rec_alt (without_alt image_data)) recommendations in
  let recommendations :=
    append_if (PyFloat.gt_int load_time 3) rec_load recommendations in
  let recommendations :=
    append_if (negb (Py.startswith website_url "https")) rec_ssl recommendations in
  Some recommendations.

(** [get_domain_name(url)]: [parsed.netloc or parsed.path], without every
    'www.', up to the first dot, in upper case. *)
Definition get_domain_name `{Urllib} `{UrllibPath} (url : string) : option string :=
  parsed ← urlparse url;
  path ← urlparse_path url;
  let domain := if String.eqb (netloc parsed) "" then path else netloc parsed in
  let domain := Py.replace domain "www." "" in
  fields ← Py.split_sep domain ".";
  first ← head fields;
  Py.upper first.

(** The metric "SEO Score" of the overview: the text and the delta. *)
Definition score_text (seo_score : PyFloat.float) : string :=
  PyFloat.format_0f seo_score +:+ "%".

Definition score_delta (seo_score : PyFloat.float) : string :=
  if PyFloat.ge_int seo_score 70 then "Good" else "Needs Work".

(** The message under the checklist of the second tab. *)
Definition seo_verdict (seo_score : PyFloat.float) : string :=
  if PyFloat.ge_int seo_score 80 then "Excellent SEO!"
  else if PyFloat.ge_int seo_score 60 then "Good, but can improve"
  else "Needs improvement".

(** The delta of the metric "Page Load Time". *)
Definition load_delta (load_time : PyFloat.float) : string :=
  if PyFloat.lt_int load_time 3 then "Fast" else "Slow".

(** [{tag: len(content) for tag, content in headings.items() if content}] *)
Definition heading_counts (headings : gmap string (list string)) : gmap string Z :=
  (fun content => Z.of_nat (length content))
    <$> filter (fun item => item.2 <> []) headings.

(** [sum(heading_counts.values())]; the order of the terms is the order of
    the dictionary, which an integer sum does not depend on. *)
Definition total_headings (headings : gmap string (list string)) : Z :=
  map_fold (fun _ count acc => acc + count) 0 (heading_counts headings).

(** [len(text_content.split())], the metric "Total Words". *)
Definition total_words (text_content : string) : Z :=
  Z.of_nat (length (Py.split text_content)).

(** [len(df_rec[df_rec['priority'] == p])], the counts of the summary. *)
Definition count_priority (p : Priority) (recommendations : list Recommendation) : Z :=
  Z.of_nat (length (List.filter
    (fun r => match priority r, p with
              | Critical, Critical | High, High | Medium, Medium | Low, Low => true
              | _, _ => false
              end) recommendations)).

End WebsiteAnalyzer.

(** [itc_website_analyzer.py] *)
Module ItcWebsiteAnalyzer.

(** The last entry of the checklist: [with_alt > total * 0.7]. *)
Definition images_have_alt (image_data : ImageStats) : bool :=
  PyFloat.int_gt (with_alt image_data) (PyFloat.mul (PyFloat.of_int (total image_data)) PyFloat.lit_0_7).

Definition checks (meta_data : MetaData) (image_data : ImageStats) (website_url : string)
  : list (string * bool) :=
  [ ("Title tag present", negb (String.eqb (title meta_data) "No title found"));
    ("Title length optimal", between 30 (title_length meta_data) 60);
    ("Meta description present", negb (String.eqb (description meta_data) "No description found"));
    ("Description length optimal", between 120 (description_length meta_data) 160);
    ("SSL enabled", Py.startswith website_url "https");
    ("Images have alt tags", images_have_alt image_data) ].

Definition seo_score (meta_data : MetaData) (image_data : ImageStats) (website_url : string)
  : PyFloat.float :=
  percentage (count_passed (checks meta_data image_data website_url)).

End ItcWebsiteAnalyzer.

(** * The vocabulary of the specification

    The predicates and the sample data the properties below are stated with. *)

(** ** Images and score *)

(** The specification's reading of "has alt": the attribute is present and
    its value is not the empty string. *)
Definition has_alt (img : node) : Prop :=
  exists v, get img "alt" = Some v /\ v <> "".

(** What holds of [(k / 6) * 100] for a count [k] of passed checks. *)
Definition percentage_facts (k : Z) (score : PyFloat.float) : Prop :=
  score = PyFloat.mul (PyFloat.int_truediv k 6) (PyFloat.of_int 100) /\
  PyFloat.is_finite score = true /\
  PyFloat.le (PyFloat.of_int 0) score = true /\
  PyFloat.le score (PyFloat.of_int 100) = true /\
  (Qabs (PyFloat.to_Q score - 100 * inject_Z k / 6) <= 1 # (2 ^ 46))%Q /\
  (k = 0 \/ k = 3 \/ k = 6 -> (PyFloat.to_Q score == 100 * inject_Z k / 6)%Q).

(** ** Headings *)

(** A string is trimmed when it neither starts nor ends with white space. *)
Definition trimmed (s : string) : Prop :=
  (forall c cs, Py.chars s = c :: cs -> Py.isspace c = false) /\
  (forall c cs, Py.chars s = cs ++ [c] -> Py.isspace c = false).

(** ** Recommendations *)

(** The rules of the specification, in its order: the condition that
    triggers a rule and the entry it adds. *)
Definition rules (meta_data : MetaData) (h1 : list string) (image_data : ImageStats)
    (load_time : PyFloat.float) (website_url : string)
  : list (bool * WebsiteAnalyzer.Recommendation) :=
  [ (bool_decide (title_length meta_data < 30 \/ 60 < title_length meta_data), WebsiteAnalyzer.rec_title);
    (bool_decide (description_length meta_data < 120 \/ 160 < description_length meta_data),
     WebsiteAnalyzer.rec_description);
    (bool_decide (length h1 = 0%nat), WebsiteAnalyzer.rec_h1);
    (bool_decide (0 < without_alt image_data), WebsiteAnalyzer.rec_alt (without_alt image_data));
    (PyFloat.gt_int load_time 3, WebsiteAnalyzer.rec_load);
    (negb (Py.startswith website_url "https"), WebsiteAnalyzer.rec_ssl) ].

(** The sample page of the examples: a short title, no description, a
    heading of level 2 only, one image without alt. *)
Definition sample_page : soup :=
  [Tag "html" ∅
     [Tag "head" ∅ [Tag "title" ∅ [NavigableString "Short"]];
      Tag "body" ∅
        [Tag "h2" ∅ [NavigableString "News"];
         Tag "img" {[ "src" := "a.png" ]} []]]].

(** ** Links *)

(** The anchors the classifier visits: the [a] elements that carry an
    [href] attribute, in document order. *)
Definition anchors_with_href (doc : soup) : list node :=
  List.filter (fun t => bool_decide (is_Some (get t "href"))) (find_all doc "a").

(** One anchor resolved: the absolute URL and its host. *)
Definition resolve `{Urllib} (base_url : string) (link : node) : option (string * string) :=
  href ← get link "href";
  full_url ← urljoin base_url href;
  parsed ← urlparse full_url;
  Some (full_url, netloc parsed).

(** The rule of the specification: the host is the host of the page, or is
    empty. *)
Definition is_internal (base_domain : string) (r : string * string) : bool :=
  bool_decide (r.2 = base_domain \/ r.2 = "").

(** *** An instance of the URL library for the examples

    A resolver for the two kinds of reference the examples use: an absolute
    URL [scheme://host/path], kept as it is, and a path from the root
    [/path], put after the scheme and host of the page. *)

Definition split_scheme (url : string) : option (string * string) :=
  match String.index 0 "://" url with
  | Some i =>
      Some (String.substring 0 i url,
            String.substring (i + 3) (String.length url - (i + 3)) url)
  | None => None
  end.

Definition authority (rest : string) : string :=
  match String.index 0 "/" rest with
  | Some j => String.substring 0 j rest
  | None => rest
  end.

Definition example_urlparse (url : string) : option ParseResult :=
  match split_scheme url with
  | Some (_, rest) => Some {| netloc := authority rest |}
  | None => Some {| netloc := "" |}
  end.

Definition example_urljoin (base_url href : string) : option string :=
  match split_scheme href, split_scheme base_url with
  | Some _, _ => Some href
  | None, Some (scheme, rest) =>
      if String.prefix "/" href then Some (scheme +:+ "://" +:+ authority rest +:+ href)
      else None
  | None, None => None
  end.

Definition example_urllib : Urllib :=
  {| urljoin := example_urljoin; urlparse := example_urlparse |}.

(** A page with four anchors: a path, the same path again, another site, and
    an anchor without [href]. *)
Definition linked_page : soup :=
  [Tag "body" ∅
     [Tag "a" {[ "href" := "/about" ]} [NavigableString "About"];
      Tag "p" ∅ [Tag "a" {[ "href" := "https://other.com/x" ]} []];
      Tag "a" {[ "name" := "top" ]} [];
      Tag "a" {[ "href" := "/about" ]} []]].

(** ** Keywords *)

(** The number of times a word occurs in a list. *)
Definition occurrences (w : string) (ws : list string) : Z :=
  Z.of_nat (length (List.filter (String.eqb w) ws)).

(** The position at which a word is first met (the length of the list when
    it is not met). *)
Fixpoint first_index (w : string) (ws : list string) : nat :=
  match ws with
  | [] => 0
  | x :: ws' => if String.eqb x w then 0 else S (first_index w ws')
  end.

(** The order of the result: a larger count first, and among equal counts
    the word met first. *)
Definition ranks_before (ws : list string) (a b : string * Z) : Prop :=
  b.2 < a.2 \/ (a.2 = b.2 /\ (first_index a.1 ws < first_index b.1 ws)%nat).

(** The order of the counter: the word met first. *)
Definition met_before (ws : list string) (a b : string * Z) : Prop :=
  (first_index a.1 ws < first_index b.1 ws)%nat.

(** A heading element: a tag of one of the six levels. *)
Definition is_heading (n : node) : bool :=
  existsb (fun key => is_tag key n) ["h1"; "h2"; "h3"; "h4"; "h5"; "h6"].

(** The sum of the counts of a list of entries. *)
Definition sum_counts (entries : list (string * Z)) : Z :=
  foldr (fun entry acc => entry.2 + acc) 0 entries.

(** What [extract_keywords] keeps of a run of characters: its ASCII letters,
    in lower case. *)
Definition clean_chars (cs : list ascii) : list ascii :=
  List.filter Py.is_ascii_letter (map Py.lower_char cs).

(** What it keeps of a token of the text: nothing when the token has no
    letter. *)
Definition clean_token (tok : string) : option string :=
  match clean_chars (Py.chars tok) with
  | [] => None
  | cs => Some (Py.str cs)
  end.

(** The totals at which [total * 0.7] is rounded to a double below seven
    tenths of the total although that number is an integer: the multiples of
    10 in the upper part of a binade, where the spacing of the doubles is too
    wide for the error of the literal [0.7] to vanish. *)
Definition rounds_below (total : Z) : bool :=
  (total mod 10 =? 0) && (5 * 2 ^ Z.log2 (7 * total / 10) <? 2 * total).

(** The largest integer that is not above [total * 0.7]. *)
Definition alt_floor (total : Z) : option Z :=
  match PyFloat.as_ratio (PyFloat.mul (PyFloat.of_int total) PyFloat.lit_0_7) with
  | Some (n, d) => if 0 <? d then Some (n / d) else None
  | None => None
  end.

Definition alt_floor_expected (total : Z) : bool :=
  match alt_floor total with
  | Some m => m =? (if rounds_below total then 7 * total / 10 - 1 else 7 * total / 10)
  | None => false
  end.

(** [l] ends with [suffix], as [str.endswith] tells. *)
Definition ends_with (suffix l : list ascii) : bool :=
  Py.starts_with (rev suffix) (rev l).

(** A run of characters without a dot. *)
Definition no_dot (l : list ascii) : Prop := Forall (fun c => c <> "."%char) l.

(** The component [path] the examples need: what follows the host, or the
    whole string when there is no scheme. *)
Definition example_urlparse_path (url : string) : option string :=
  match split_scheme url with
  | Some (_, rest) =>
      match String.index 0 "/" rest with
      | Some j => Some (String.substring j (String.length rest - j) rest)
      | None => Some ""
      end
  | None => Some url
  end.

Definition example_urllib_path : UrllibPath :=
  {| urlparse_path := example_urlparse_path |}.

(** A page nothing is recommended for: a title of 35 characters, a
    description of 122, a heading of level 1 and an image with alt. *)
Definition tidy_page : soup :=
  [Tag "html" ∅
     [Tag "head" ∅
        [Tag "title" ∅ [NavigableString "Website analysis for search engines"];
         Tag "meta"
           {[ "name" := "description";
              "content" := "A dashboard that reads a page and reports its title, description, headings, keywords, links and images for search engines." ]}
           []];
      Tag "body" ∅
        [Tag "h1" ∅ [NavigableString "Analysis"];
         Tag "img" {[ "src" := "a.png"; "alt" := "A chart" ]} []]]].

(** * Properties *)

(** Closes a goal about concrete data by evaluation. *)
Ltac by_evaluation := vm_compute; repeat split; first [reflexivity | discriminate].

(** One step along a chain of [option] binds: the case of the exception is
    closed, the other case goes on. *)
Tactic Notation "case_bind" constr(o) "as" ident(x) :=
  destruct o as [x|] eqn:?; simpl; [|first [reflexivity | discriminate]].

(** ** Lists and strings *)

Section Lists.

Context {A : Type}.

Implicit Types (l : list A) (R : A -> A -> Prop) (u v : A) (i j n : nat).

Lemma filter_partition_length (f : A -> bool) l :
  (length (List.filter f l) + length (List.filter (fun x => negb (f x)) l) = length l)%nat.
Proof.
  induction l as [|x l IH]; simpl; [reflexivity|].
  destruct (f x); simpl; lia.
Qed.

Lemma StronglySorted_take R n l :
  StronglySorted R l -> StronglySorted R (take n l).
Proof.
  intros Hs. rewrite <- (take_drop n l) in Hs.
  apply StronglySorted_app in Hs. tauto.
Qed.

Lemma StronglySorted_take_drop R n l u v :
  StronglySorted R l -> In u (take n l) -> In v (drop n l) -> R u v.
Proof.
  intros Hs Hx Hy. rewrite <- (take_drop n l) in Hs.
  apply StronglySorted_app in Hs as (Hxy & _ & _).
  apply Hxy; apply list_elem_of_In; assumption.
Qed.

Lemma StronglySorted_lookup R l i j u v :
  StronglySorted R l -> (i < j)%nat -> l !! i = Some u -> l !! j = Some v -> R u v.
Proof.
  intros Hs. revert i j. induction Hs as [|a l Hs IH Ha]; intros i j Hij Hi Hj.
  - discriminate Hi.
  - destruct j as [|j]; [lia|]. destruct i as [|i]; simpl in Hi, Hj.
    + injection Hi as <-. rewrite List.Forall_forall in Ha.
      apply Ha. apply list_elem_of_In. eapply list_elem_of_lookup_2. exact Hj.
    + apply (IH i j); [lia | exact Hi | exact Hj].
Qed.

End Lists.

Lemma chars_str (cs : list ascii) : Py.chars (Py.str cs) = cs.
Proof. apply list_ascii_of_string_of_list_ascii. Qed.

Lemma str_chars (s : string) : Py.str (Py.chars s) = s.
Proof. apply string_of_list_ascii_of_string. Qed.

(** ** Image statistics *)

Section Images.

Implicit Types (doc : soup) (img : node) (s : ImageStats).

Lemma truthy_spec (o : option string) :
  Py.truthy o = true <-> exists v, o = Some v /\ v <> "".
Proof.
  destruct o as [v|]; simpl.
  - rewrite negb_true_iff, String.eqb_neq. split.
    + intros Hv. exists v. split; [reflexivity | exact Hv].
    + intros (v' & Heq & Hne). injection Heq as ->. exact Hne.
  - split; [discriminate | intros (v & Heq & _); discriminate].
Qed.

Lemma sum_ones_from (a : Z) {A : Type} (l : list A) :
  foldl Z.add a (map (fun _ => 1) l) = a + Z.of_nat (length l).
Proof.
  revert a. induction l as [|x l IH]; intros a; simpl.
  - lia.
  - rewrite IH. lia.
Qed.

Lemma sum_ones {A : Type} (l : list A) :
  sum (map (fun _ => 1) l) = Z.of_nat (length l).
Proof. unfold sum. rewrite sum_ones_from. lia. Qed.

Lemma with_alt_count doc :
  with_alt (analyze_images doc)
  = Z.of_nat (length (List.filter (fun img => Py.truthy (get img "alt")) (find_all doc "img"))).
Proof. unfold analyze_images; simpl. apply sum_ones. Qed.

Lemma with_alt_bounds doc :
  0 <= with_alt (analyze_images doc) <= total (analyze_images doc).
Proof.
  rewrite with_alt_count. unfold analyze_images; simpl.
  pose proof (List.filter_length_le (fun img => Py.truthy (get img "alt")) (find_all doc "img")).
  lia.
Qed.

(** C7.  The image auditor counts every [img] element, counts an image as
    having alt exactly when its [alt] attribute is present and not the empty
    string, and returns statistics with [with_alt + without_alt = total]. *)
Theorem analyze_images_invariant doc :
  let images := find_all doc "img" in
  let s := analyze_images doc in
  total s = Z.of_nat (length images) /\
  with_alt s = Z.of_nat (length (List.filter (fun img => Py.truthy (get img "alt")) images)) /\
  (forall img, Py.truthy (get img "alt") = true <-> has_alt img) /\
  Py.truthy (Some "") = false /\
  without_alt s = Z.of_nat (length (List.filter (fun img => negb (Py.truthy (get img "alt"))) images)) /\
  with_alt s + without_alt s = total s.
Proof.
  cbv zeta.
  pose proof (filter_partition_length (fun img => Py.truthy (get img "alt")) (find_all doc "img"))
    as Hlen.
  split; [reflexivity|].
  split; [apply with_alt_count|].
  split; [intros img; apply truthy_spec|].
  split; [reflexivity|].
  pose proof (with_alt_count doc) as Hw.
  assert (Hwo : without_alt (analyze_images doc)
                = Z.of_nat (length (find_all doc "img")) - with_alt (analyze_images doc))
    by reflexivity.
  assert (Ht : total (analyze_images doc) = Z.of_nat (length (find_all doc "img")))
    by reflexivity.
  split; lia.
Qed.

(** Three images: an empty alt, a real alt, no alt at all. *)
Example analyze_images_example :
  analyze_images [Tag "img" {[ "alt" := "" ]} []; Tag "img" {[ "alt" := "logo" ]} []; Tag "img" ∅ []]
  = {| total := 3; with_alt := 1; without_alt := 2 |}.
Proof. by_evaluation. Qed.

End Images.

(** ** The checklist and the score *)

Section Score.

Implicit Types (meta_data : MetaData) (image_data : ImageStats) (website_url : string).
Implicit Types (cs : list (string * bool)) (k : Z).

Lemma count_passed_from (a : Z) cs :
  foldl (fun score '(_, passed) => if passed : bool then score + 1 else score) a cs
  = a + Z.of_nat (length (List.filter snd cs)).
Proof.
  revert a. induction cs as [|[name passed] cs IH]; intros a; simpl.
  - lia.
  - rewrite IH. destruct passed; simpl; lia.
Qed.

Lemma count_passed_filter cs :
  count_passed cs = Z.of_nat (length (List.filter snd cs)).
Proof. unfold count_passed. rewrite count_passed_from. lia. Qed.

Lemma count_passed_bounds cs : 0 <= count_passed cs <= Z.of_nat (length cs).
Proof.
  rewrite count_passed_filter.
  pose proof (List.filter_length_le snd cs). lia.
Qed.

Lemma count_passed_app cs cs' :
  count_passed (cs ++ cs') = count_passed cs + count_passed cs'.
Proof.
  rewrite !count_passed_filter, List.filter_app, length_app. lia.
Qed.

Lemma small_count_cases k :
  0 <= k <= 6 -> k = 0 \/ k = 1 \/ k = 2 \/ k = 3 \/ k = 4 \/ k = 5 \/ k = 6.
Proof. lia. Qed.

(** The seven values [(k / 6) * 100] takes in binary64. *)
Lemma percentage_table :
  map percentage [0; 1; 2; 3; 4; 5; 6]
  = [ S754_zero false;
      S754_finite false 4691249611844266 (-48);
      S754_finite false 4691249611844266 (-47);
      S754_finite false 7036874417766400 (-47);
      S754_finite false 4691249611844266 (-46);
      S754_finite false 5864062014805334 (-46);
      S754_finite false 7036874417766400 (-46) ].
Proof. vm_compute. reflexivity. Qed.

Lemma percentage_in_range k : 0 <= k <= 6 -> percentage_facts k (percentage k).
Proof.
  intros Hk. unfold percentage_facts.
  split; [reflexivity|].
  destruct (small_count_cases k Hk) as [-> | [-> | [-> | [-> | [-> | [-> | ->]]]]]];
    (split; [vm_compute; reflexivity|]);
    (split; [vm_compute; reflexivity|]);
    (split; [vm_compute; reflexivity|]);
    (split; [vm_compute; discriminate|]);
    intros [Hk' | [Hk' | Hk']]; try discriminate Hk'; vm_compute; reflexivity.
Qed.

(** The score grows with the number of passed checks. *)
Lemma percentage_monotone k : 0 <= k <= 5 -> PyFloat.le (percentage k) (percentage 5) = true.
Proof.
  intros Hk.
  assert (Hc : k = 0 \/ k = 1 \/ k = 2 \/ k = 3 \/ k = 4 \/ k = 5) by lia.
  destruct Hc as [-> | [-> | [-> | [-> | [-> | ->]]]]]; vm_compute; reflexivity.
Qed.

Lemma checks_length meta_data image_data website_url :
  length (WebsiteAnalyzer.checks meta_data image_data website_url) = 6%nat.
Proof. reflexivity. Qed.

Lemma itc_checks_length meta_data image_data website_url :
  length (ItcWebsiteAnalyzer.checks meta_data image_data website_url) = 6%nat.
Proof. reflexivity. Qed.

(** C1, as the scripts compute it.  The score is a function of the
    metadata, the image statistics and the URL alone: the checklist has six
    entries, the number [k] of passed ones lies in [0, 6], and the score is
    the binary64 value of [(k / 6) * 100].  That value is finite, lies in
    [0, 100], equals the rational [100 * k / 6] for [k] in {0, 3, 6} and is
    within [2^-46] of it for every [k].  Both scripts. *)
Theorem seo_score_percentage meta_data image_data website_url :
  let cs := WebsiteAnalyzer.checks meta_data image_data website_url in
  let cs' := ItcWebsiteAnalyzer.checks meta_data image_data website_url in
  (length cs = 6%nat /\
   count_passed cs = Z.of_nat (length (List.filter snd cs)) /\
   0 <= count_passed cs <= 6 /\
   percentage_facts (count_passed cs)
     (WebsiteAnalyzer.seo_score meta_data image_data website_url)) /\
  (length cs' = 6%nat /\
   count_passed cs' = Z.of_nat (length (List.filter snd cs')) /\
   0 <= count_passed cs' <= 6 /\
   percentage_facts (count_passed cs')
     (ItcWebsiteAnalyzer.seo_score meta_data image_data website_url)).
Proof.
  cbv zeta. split.
  - pose proof (count_passed_bounds (WebsiteAnalyzer.checks meta_data image_data website_url)) as Hb.
    rewrite checks_length in Hb.
    repeat split; try apply count_passed_filter; try lia;
      apply (percentage_in_range _ Hb).
  - pose proof (count_passed_bounds (ItcWebsiteAnalyzer.checks meta_data image_data website_url)) as Hb.
    rewrite itc_checks_length in Hb.
    repeat split; try apply count_passed_filter; try lia;
      apply (percentage_in_range _ Hb).
Qed.

(** The empty page served over https passes one check out of six. *)
Example one_check_passed :
  WebsiteAnalyzer.checks (extract_meta_tags []) (analyze_images []) "https://example.com"
  = [ ("Title tag present", false); ("Title length optimal", false);
      ("Meta description present", false); ("Description length optimal", false);
      ("SSL enabled", true); ("Images have alt tags", false) ].
Proof. by_evaluation. Qed.

(** C1, as the specification words it, fails for one passed check: the score
    is the double 16.666666666666664, which is the rational [100 * k / 6] for
    no integer [k] of [0, 6], and is not the double [100 * k / 6] either (for
    [k = 1] that one is 16.666666666666668). *)
Lemma seo_score_not_exact :
  let score :=
    WebsiteAnalyzer.seo_score (extract_meta_tags []) (analyze_images []) "https://example.com" in
  score = S754_finite false 4691249611844266 (-48) /\
  ~ (exists k : Z, 0 <= k <= 6 /\ (PyFloat.to_Q score == 100 * inject_Z k / 6)%Q) /\
  ~ (exists k : Z, 0 <= k <= 6 /\ score = PyFloat.int_truediv (100 * k) 6).
Proof.
  cbv zeta. split; [vm_compute; reflexivity|].
  split; intros (k & Hk & Heq);
    destruct (small_count_cases k Hk) as [-> | [-> | [-> | [-> | [-> | [-> | ->]]]]]];
    vm_compute in Heq; discriminate Heq.
Qed.

(** C2.  A document without [img] elements has the statistics [{0, 0, 0}];
    the last check of the list is then not passed, in both scripts, so the
    passed checks are those among the first five. *)
Theorem no_images_check_not_passed (doc : soup) meta_data website_url :
  find_all doc "img" = [] ->
  let image_data := analyze_images doc in
  image_data = {| total := 0; with_alt := 0; without_alt := 0 |} /\
  WebsiteAnalyzer.images_have_alt image_data = false /\
  ItcWebsiteAnalyzer.images_have_alt image_data = false /\
  lookup 5%nat (WebsiteAnalyzer.checks meta_data image_data website_url)
    = Some ("Images have alt tags", false) /\
  lookup 5%nat (ItcWebsiteAnalyzer.checks meta_data image_data website_url)
    = Some ("Images have alt tags", false) /\
  count_passed (WebsiteAnalyzer.checks meta_data image_data website_url)
    = count_passed (take 5 (WebsiteAnalyzer.checks meta_data image_data website_url)) /\
  count_passed (ItcWebsiteAnalyzer.checks meta_data image_data website_url)
    = count_passed (take 5 (ItcWebsiteAnalyzer.checks meta_data image_data website_url)) /\
  count_passed (WebsiteAnalyzer.checks meta_data image_data website_url) <= 5 /\
  PyFloat.le (WebsiteAnalyzer.seo_score meta_data image_data website_url) (percentage 5) = true.
Proof.
  intros Himg. cbv zeta.
  assert (Hs : analyze_images doc = {| total := 0; with_alt := 0; without_alt := 0 |}).
  { unfold analyze_images. rewrite Himg. reflexivity. }
  rewrite Hs.
  assert (Hw : WebsiteAnalyzer.images_have_alt {| total := 0; with_alt := 0; without_alt := 0 |} = false)
    by (vm_compute; reflexivity).
  assert (Hi : ItcWebsiteAnalyzer.images_have_alt {| total := 0; with_alt := 0; without_alt := 0 |} = false)
    by (vm_compute; reflexivity).
  split; [reflexivity|]. split; [exact Hw|]. split; [exact Hi|].
  unfold WebsiteAnalyzer.checks, ItcWebsiteAnalyzer.checks.
  rewrite Hw, Hi. simpl lookup. simpl take.
  split; [reflexivity|]. split; [reflexivity|].
  assert (Hlast : forall cs : list (string * bool),
            count_passed (cs ++ [("Images have alt tags", false)]) = count_passed cs).
  { intros cs. rewrite count_passed_app.
    change (count_passed [("Images have alt tags", false)]) with 0. lia. }
  split; [|split].
  - apply (Hlast [_; _; _; _; _]).
  - apply (Hlast [_; _; _; _; _]).
  - set (five :=
      [ ("Title tag present", negb (String.eqb (title meta_data) "No title found"));
        ("Title length optimal", between 30 (title_length meta_data) 60);
        ("Meta description present", negb (String.eqb (description meta_data) "No description found"));
        ("Description length optimal", between 120 (description_length meta_data) 160);
        ("SSL enabled", Py.startswith website_url "https") ]).
    assert (Hfive : 0 <= count_passed (five ++ [("Images have alt tags", false)]) <= 5).
    { rewrite Hlast. pose proof (count_passed_bounds five) as Hb. simpl length in Hb. lia. }
    split; [apply Hfive|].
    unfold WebsiteAnalyzer.seo_score, WebsiteAnalyzer.checks. rewrite Hw. fold five.
    apply percentage_monotone. exact Hfive.
Qed.

Lemma no_images_check_not_passed_witness :
  let doc := [Tag "title" ∅ [NavigableString "Short"]] in
  find_all doc "img" = [] /\
  count_passed (WebsiteAnalyzer.checks (extract_meta_tags doc) (analyze_images doc) "https://example.com") <= 5.
Proof.
  cbv zeta. split; [reflexivity|].
  pose proof (no_images_check_not_passed
                [Tag "title" ∅ [NavigableString "Short"]]
                (extract_meta_tags [Tag "title" ∅ [NavigableString "Short"]])
                "https://example.com" eq_refl) as Hno.
  cbv zeta in Hno. apply Hno.
Defined.

(** C3, as the specification words it, fails on the statistics of a page
    without images: the unguarded expression of [itc_website_analyzer.py] is
    [0 > 0 * 0.7], a multiplication, and evaluates to [False] like the guarded
    one. *)
Lemma alt_checks_agree_without_images :
  let image_data := analyze_images [] in
  total image_data = 0 /\
  PyFloat.mul (PyFloat.of_int (total image_data)) PyFloat.lit_0_7 = S754_zero false /\
  ItcWebsiteAnalyzer.images_have_alt image_data = false /\
  WebsiteAnalyzer.images_have_alt image_data = false /\
  ~ (forall s : ImageStats,
       0 <= with_alt s <= total s -> total s = 0 ->
       ItcWebsiteAnalyzer.images_have_alt s <> WebsiteAnalyzer.images_have_alt s).
Proof.
  cbv zeta. repeat (split; [vm_compute; reflexivity|]).
  intros H.
  apply (H {| total := 0; with_alt := 0; without_alt := 0 |}); simpl; try lia.
  vm_compute. reflexivity.
Qed.

Lemma alt_checks_agree (s : ImageStats) :
  0 <= with_alt s <= total s ->
  ItcWebsiteAnalyzer.images_have_alt s = WebsiteAnalyzer.images_have_alt s.
Proof.
  intros Hs. unfold WebsiteAnalyzer.images_have_alt.
  destruct (0 <? total s) eqn:Hpos; [reflexivity|].
  apply Z.ltb_ge in Hpos.
  assert (Ht : total s = 0) by lia.
  assert (Hw : with_alt s = 0) by lia.
  unfold ItcWebsiteAnalyzer.images_have_alt. rewrite Ht, Hw.
  vm_compute. reflexivity.
Qed.

(** C3, amended.  The two expressions are equal on every statistics the image
    auditor returns, and on every statistics with [0 <= with_alt <= total];
    hence the two scripts compute the same checklist and the same score.  They
    differ on records no page produces, such as a total of 0 with one image
    having alt. *)
Theorem alt_checks_equivalent_on_image_stats :
  (forall doc : soup,
     ItcWebsiteAnalyzer.images_have_alt (analyze_images doc)
     = WebsiteAnalyzer.images_have_alt (analyze_images doc)) /\
  (forall s : ImageStats,
     0 <= with_alt s <= total s ->
     ItcWebsiteAnalyzer.images_have_alt s = WebsiteAnalyzer.images_have_alt s) /\
  (forall (doc : soup) meta_data website_url,
     ItcWebsiteAnalyzer.checks meta_data (analyze_images doc) website_url
     = WebsiteAnalyzer.checks meta_data (analyze_images doc) website_url /\
     ItcWebsiteAnalyzer.seo_score meta_data (analyze_images doc) website_url
     = WebsiteAnalyzer.seo_score meta_data (analyze_images doc) website_url) /\
  ItcWebsiteAnalyzer.images_have_alt {| total := 0; with_alt := 1; without_alt := -1 |} = true /\
  WebsiteAnalyzer.images_have_alt {| total := 0; with_alt := 1; without_alt := -1 |} = false.
Proof.
  assert (Hdoc : forall doc : soup,
     ItcWebsiteAnalyzer.images_have_alt (analyze_images doc)
     = WebsiteAnalyzer.images_have_alt (analyze_images doc)).
  { intros doc. apply alt_checks_agree, with_alt_bounds. }
  split; [exact Hdoc|].
  split; [exact alt_checks_agree|].
  split.
  - intros doc meta_data website_url.
    unfold ItcWebsiteAnalyzer.seo_score, WebsiteAnalyzer.seo_score,
      ItcWebsiteAnalyzer.checks, WebsiteAnalyzer.checks.
    rewrite Hdoc. split; reflexivity.
  - split; vm_compute; reflexivity.
Qed.

End Score.

(** ** Metadata *)

Section Metadata.

Implicit Types (doc : soup) (t : node).

Lemma length_fields doc :
  title_length (extract_meta_tags doc) = Py.len (title (extract_meta_tags doc)) /\
  description_length (extract_meta_tags doc) = Py.len (description (extract_meta_tags doc)).
Proof. split; reflexivity. Qed.

Lemma sentinel_lengths :
  Py.len "No title found" = 14 /\ Py.len "No description found" = 20.
Proof. split; reflexivity. Qed.

(** A page without a title and without a description gets the two sentinels,
    and their lengths. *)
Example extract_meta_tags_empty :
  extract_meta_tags []
  = {| title := "No title found"; title_length := 14;
       description := "No description found"; description_length := 20;
       meta_keywords := "No keywords found"; og_title := "Not set";
       og_description := "Not set" |}.
Proof. by_evaluation. Qed.

(** C8, as the specification words it, fails on the page
    [<title>Short</title>]: the sentinel "No description found" has 20
    characters, and 20 is the length the extractor stores, not 22. *)
Lemma description_sentinel_length_is_not_22 :
  let meta_data := extract_meta_tags [Tag "title" ∅ [NavigableString "Short"]] in
  title meta_data = "Short" /\
  description meta_data = "No description found" /\
  description_length meta_data = 20 /\
  description_length meta_data <> 22.
Proof. cbv zeta. repeat split; try (vm_compute; reflexivity). vm_compute. discriminate. Qed.

(** C8, amended.  For a page whose first [title] element has the trimmed
    text "Short" and which has no [meta name="description"] element, the
    extractor returns a title of length 5 and the sentinel description of
    length 20; the checks on the title length, on the description being
    present and on the description length all fail, so at most the three
    other checks count.  For every page the two length fields are the
    character counts of the title and description returned, sentinel or not. *)
Theorem short_title_without_description doc t image_data website_url :
  find doc "title" = Some t ->
  Py.strip (text t) = "Short" ->
  find_attr doc "meta" "name" "description" = None ->
  let meta_data := extract_meta_tags doc in
  title meta_data = "Short" /\
  title_length meta_data = 5 /\
  description meta_data = "No description found" /\
  description_length meta_data = 20 /\
  WebsiteAnalyzer.checks meta_data image_data website_url
  = [ ("Title tag present", true); ("Title length optimal", false);
      ("Meta description present", false); ("Description length optimal", false);
      ("SSL enabled", Py.startswith website_url "https");
      ("Images have alt tags", WebsiteAnalyzer.images_have_alt image_data) ] /\
  count_passed (WebsiteAnalyzer.checks meta_data image_data website_url) <= 3 /\
  (forall doc' : soup,
     title_length (extract_meta_tags doc') = Py.len (title (extract_meta_tags doc')) /\
     description_length (extract_meta_tags doc')
     = Py.len (description (extract_meta_tags doc'))).
Proof.
  intros Htitle Htext Hdesc. cbv zeta.
  assert (Ht : title (extract_meta_tags doc) = "Short").
  { unfold extract_meta_tags; simpl. rewrite Htitle. exact Htext. }
  assert (Hd : description (extract_meta_tags doc) = "No description found").
  { unfold extract_meta_tags; simpl. rewrite Hdesc. reflexivity. }
  assert (Htl : title_length (extract_meta_tags doc) = 5).
  { rewrite (proj1 (length_fields doc)), Ht. reflexivity. }
  assert (Hdl : description_length (extract_meta_tags doc) = 20).
  { rewrite (proj2 (length_fields doc)), Hd. reflexivity. }
  assert (Hcs : WebsiteAnalyzer.checks (extract_meta_tags doc) image_data website_url
    = [ ("Title tag present", true); ("Title length optimal", false);
        ("Meta description present", false); ("Description length optimal", false);
        ("SSL enabled", Py.startswith website_url "https");
        ("Images have alt tags", WebsiteAnalyzer.images_have_alt image_data) ]).
  { unfold WebsiteAnalyzer.checks. rewrite Ht, Hd, Htl, Hdl. reflexivity. }
  repeat (split; [assumption|]).
  split; [|exact length_fields].
  rewrite Hcs, count_passed_filter. simpl.
  destruct (Py.startswith website_url "https"),
    (WebsiteAnalyzer.images_have_alt image_data); simpl; lia.
Qed.

Lemma short_title_without_description_witness :
  let doc := [Tag "html" ∅ [Tag "head" ∅ [Tag "title" ∅ [NavigableString " Short "]]]] in
  let meta_data := extract_meta_tags doc in
  title_length meta_data = 5 /\ description_length meta_data = 20.
Proof.
  cbv zeta.
  pose proof (short_title_without_description
    [Tag "html" ∅ [Tag "head" ∅ [Tag "title" ∅ [NavigableString " Short "]]]]
    (Tag "title" ∅ [NavigableString " Short "])
    (analyze_images []) "https://example.com"
    eq_refl eq_refl eq_refl) as H.
  cbv zeta in H.
  destruct H as (_ & H5 & _ & H20 & _).
  split; [exact H5 | exact H20].
Defined.

End Metadata.

(** ** Headings *)

Section Headings.

Implicit Types (doc : soup) (cs : list ascii) (s : string).

Lemma lstrip_chars_head cs c cs' :
  Py.lstrip_chars cs = c :: cs' -> Py.isspace c = false.
Proof.
  induction cs as [|a cs IH]; simpl; [discriminate|].
  destruct (Py.isspace a) eqn:Ha; [exact IH|].
  intros [= <- _]. exact Ha.
Qed.

Lemma lstrip_chars_suffix cs : exists spaces, cs = spaces ++ Py.lstrip_chars cs.
Proof.
  induction cs as [|a cs [spaces IH]]; simpl.
  - exists []. reflexivity.
  - destruct (Py.isspace a).
    + exists (a :: spaces). simpl. f_equal. exact IH.
    + exists []. reflexivity.
Qed.

Lemma strip_trimmed s : trimmed (Py.strip s).
Proof.
  unfold trimmed, Py.strip. rewrite chars_str.
  set (l := Py.lstrip_chars (Py.chars s)).
  set (r := Py.lstrip_chars (rev l)).
  split.
  - intros c cs Hc.
    assert (Hr : r = rev cs ++ [c]).
    { rewrite <- (rev_involutive r), Hc. reflexivity. }
    destruct (lstrip_chars_suffix (rev l)) as [spaces Hs]. fold r in Hs.
    assert (Hl : l = c :: rev (spaces ++ rev cs)).
    { rewrite <- (rev_involutive l), Hs, Hr, app_assoc, rev_app_distr. reflexivity. }
    exact (lstrip_chars_head _ _ _ Hl).
  - intros c cs Hc.
    assert (Hr : r = c :: rev cs).
    { rewrite <- (rev_involutive r), Hc, rev_app_distr. reflexivity. }
    exact (lstrip_chars_head _ _ _ Hr).
Qed.

Lemma range_1_7 : seqZ 1 6 = [1; 2; 3; 4; 5; 6].
Proof. reflexivity. Qed.

Lemma heading_keys :
  map heading_key [1; 2; 3; 4; 5; 6] = ["h1"; "h2"; "h3"; "h4"; "h5"; "h6"].
Proof. reflexivity. Qed.

(** The dictionary after the six iterations of the loop. *)
Lemma extract_headings_unfold doc :
  let texts key := map (fun tag => Py.strip (text tag)) (find_all doc key) in
  extract_headings doc
  = <["h6" := texts "h6"]> (<["h5" := texts "h5"]> (<["h4" := texts "h4"]>
     (<["h3" := texts "h3"]> (<["h2" := texts "h2"]> (<["h1" := texts "h1"]> ∅))))).
Proof. reflexivity. Qed.

Lemma extract_headings_lookup doc (key : string) :
  key ∈ ["h1"; "h2"; "h3"; "h4"; "h5"; "h6"] ->
  extract_headings doc !! key
  = Some (map (fun tag => Py.strip (text tag)) (find_all doc key)).
Proof.
  intros Hkey. rewrite extract_headings_unfold. cbv zeta.
  repeat (apply elem_of_cons in Hkey as [-> | Hkey]; [by simplify_map_eq|]).
  by apply elem_of_nil in Hkey.
Qed.

(** C10.  For every page the heading extractor returns a dictionary whose
    keys are exactly 'h1' .. 'h6'; each key is bound to the trimmed texts of
    the elements of that name, in document order, so the list is empty when
    there is none and the lookup of a level always succeeds. *)
Theorem extract_headings_six_levels doc :
  let headings := extract_headings doc in
  dom headings = {[ "h1"; "h2"; "h3"; "h4"; "h5"; "h6" ]} /\
  (forall key : string,
     key ∈ ["h1"; "h2"; "h3"; "h4"; "h5"; "h6"] ->
     headings !! key
     = Some (map (fun tag => Py.strip (text tag))
               (List.filter (is_tag key) (soup_descendants doc)))) /\
  (forall (key : string) texts,
     headings !! key = Some texts -> Forall trimmed texts) /\
  (forall key : string,
     key ∈ ["h1"; "h2"; "h3"; "h4"; "h5"; "h6"] ->
     find_all doc key = [] -> headings !! key = Some []).
Proof.
  cbv zeta. split; [|split; [|split]].
  - rewrite extract_headings_unfold. cbv zeta.
    rewrite !dom_insert_L, dom_empty_L. set_solver.
  - intros key Hkey. apply (extract_headings_lookup doc key Hkey).
  - intros key texts Hlook.
    assert (Hkey : key ∈ ["h1"; "h2"; "h3"; "h4"; "h5"; "h6"]).
    { rewrite extract_headings_unfold in Hlook. cbv zeta in Hlook.
      repeat (rewrite lookup_insert in Hlook;
              case_decide; [subst key; set_solver|]).
      by rewrite lookup_empty in Hlook. }
    rewrite (extract_headings_lookup doc key Hkey) in Hlook.
    injection Hlook as <-.
    apply Forall_map, Forall_forall. intros tag _. apply strip_trimmed.
  - intros key Hkey Hnone.
    rewrite (extract_headings_lookup doc key Hkey), Hnone. reflexivity.
Qed.

(** A page without headings, and a page with nested and repeated ones. *)
Example extract_headings_empty :
  map (fun key => extract_headings [] !! key) ["h1"; "h2"; "h3"; "h4"; "h5"; "h6"; "h7"]
  = [Some []; Some []; Some []; Some []; Some []; Some []; None].
Proof. by_evaluation. Qed.

Example extract_headings_example :
  let doc := [Tag "body" ∅
                [Tag "h1" ∅ [NavigableString "  Welcome "; Tag "b" ∅ [NavigableString "home  "]];
                 Tag "div" ∅ [Tag "h2" ∅ [NavigableString " News"]; Comment "x"];
                 Tag "h1" ∅ [NavigableString "Contact"]]] in
  extract_headings doc !! "h1" = Some ["Welcome home"; "Contact"] /\
  extract_headings doc !! "h2" = Some ["News"] /\
  extract_headings doc !! "h3" = Some [].
Proof. by_evaluation. Qed.

End Headings.

(** ** Recommendations *)

Section Recommendations.

Import WebsiteAnalyzer.

Implicit Types (meta_data : MetaData) (image_data : ImageStats) (website_url : string).
Implicit Types (headings : gmap string (list string)) (load_time : PyFloat.float).

Lemma not_between a x b : negb (between a x b) = bool_decide (x < a \/ b < x).
Proof.
  unfold between.
  destruct (Z.leb_spec a x), (Z.leb_spec x b); simpl; symmetry;
    first [ apply bool_decide_eq_true; lia | apply bool_decide_eq_false; lia ].
Qed.

Lemma is_nil_length {A : Type} `{EqDecision A} (l : list A) :
  bool_decide (l = []) = bool_decide (length l = 0%nat).
Proof. destruct l; reflexivity. Qed.

Lemma positive_ltb x : (0 <? x) = bool_decide (0 < x).
Proof.
  destruct (Z.ltb_spec 0 x); symmetry;
    [apply bool_decide_eq_true | apply bool_decide_eq_false]; lia.
Qed.

Lemma no_rule_triggered {A : Type} (l : list (bool * A)) :
  map snd (List.filter fst l) = [] <-> Forall (fun rule => fst rule = false) l.
Proof.
  induction l as [|[b r] l IH]; simpl.
  - split; [constructor | reflexivity].
  - destruct b; simpl.
    + split; [discriminate | intros H; inversion H; discriminate].
    + rewrite IH. split.
      * intros H. constructor; [reflexivity | exact H].
      * intros H. inversion H; assumption.
Qed.

(** [x > a] is the comparison of the two numbers, for a finite [x]. *)
Lemma gt_int_spec (x : PyFloat.float) (a : Z) :
  PyFloat.is_finite x = true ->
  PyFloat.gt_int x a = true <-> (inject_Z a < PyFloat.to_Q x)%Q.
Proof.
  destruct x as [s | s | | s m e]; try discriminate; intros _;
    unfold PyFloat.gt_int, PyFloat.to_Q, PyFloat.as_ratio, Qlt; simpl Qnum; simpl Qden.
  - rewrite Z.ltb_lt. simpl. lia.
  - destruct (0 <=? e) eqn:He.
    + rewrite Z.ltb_lt. cbn [Qnum Qden]. lia.
    + apply Z.leb_gt in He. rewrite Z.ltb_lt. cbn [Qnum Qden].
      assert (Hp : 0 < 2 ^ (- e)) by (apply Z.pow_pos_nonneg; lia).
      rewrite Z2Pos.id by exact Hp. lia.
Qed.

(** C9.  When the headings have the key 'h1', the recommender returns the
    entries of the triggered rules in the order of the six rules; the entries
    carry the priority and the category of the specification and the fourth
    one starts with the number of images without alt; the fifth rule compares
    the load time with 3 as numbers; the result is empty exactly when no rule
    is triggered. *)
Theorem recommendations_in_rule_order meta_data headings image_data load_time website_url h1 :
  headings !! "h1" = Some h1 ->
  let triggered := rules meta_data h1 image_data load_time website_url in
  recommendations meta_data headings image_data load_time website_url
  = Some (map snd (List.filter fst triggered)) /\
  map (fun r => (priority (snd r), category (snd r))) triggered
  = [ (High, "SEO"); (High, "SEO"); (Critical, "Content"); (Medium, "Accessibility");
      (High, "Performance"); (Critical, "Security") ] /\
  (forall n, issue (rec_alt n) = Py.str_of_int n +:+ " Images Without Alt Text") /\
  (PyFloat.is_finite load_time = true ->
   PyFloat.gt_int load_time 3 = true <-> (3 < PyFloat.to_Q load_time)%Q) /\
  (recommendations meta_data headings image_data load_time website_url = Some []
   <-> Forall (fun rule => fst rule = false) triggered).
Proof.
  intros Hh1. cbv zeta.
  assert (Heq : recommendations meta_data headings image_data load_time website_url
    = Some (map snd (List.filter fst (rules meta_data h1 image_data load_time website_url)))).
  { unfold recommendations, rules. rewrite Hh1. simpl.
    rewrite !not_between, is_nil_length, positive_ltb.
    destruct (bool_decide (title_length meta_data < 30 \/ 60 < title_length meta_data)),
      (bool_decide (description_length meta_data < 120 \/ 160 < description_length meta_data)),
      (bool_decide (length h1 = 0%nat)),
      (bool_decide (0 < without_alt image_data)),
      (PyFloat.gt_int load_time 3),
      (Py.startswith website_url "https"); reflexivity. }
  split; [exact Heq|]. split; [reflexivity|]. split; [reflexivity|].
  split; [apply (gt_int_spec load_time 3)|].
  rewrite Heq, <- (no_rule_triggered (rules meta_data h1 image_data load_time website_url)).
  split; [intros [= H]; exact H | intros ->; reflexivity].
Qed.

(** Over plain http and in 3.5 seconds the sample page triggers all six
    rules: the two of priority High come before the Critical one, the result
    is not sorted by priority. *)
Lemma recommendations_in_rule_order_witness :
  extract_headings sample_page !! "h1" = Some [] /\
  option_map (map (fun r => (priority r, issue r)))
    (recommendations (extract_meta_tags sample_page) (extract_headings sample_page)
       (analyze_images sample_page) (PyFloat.int_truediv 7 2) "http://example.com")
  = Some [ (High, "Title Tag Length"); (High, "Meta Description Length");
           (Critical, "Missing H1 Tags"); (Medium, "1 Images Without Alt Text");
           (High, "Slow Page Load Time"); (Critical, "No SSL Certificate") ].
Proof.
  split; [vm_compute; reflexivity|].
  rewrite (proj1 (recommendations_in_rule_order
    (extract_meta_tags sample_page) (extract_headings sample_page)
    (analyze_images sample_page) (PyFloat.int_truediv 7 2) "http://example.com" []
    eq_refl)).
  vm_compute. reflexivity.
Defined.

(** A page that triggers nothing: lengths inside the two intervals, one
    heading of level 1, every image with alt, half a second, https. *)
Example recommendations_none meta_data :
  title_length meta_data = 45 ->
  description_length meta_data = 140 ->
  recommendations meta_data {[ "h1" := ["Welcome"] ]}
    {| total := 2; with_alt := 2; without_alt := 0 |}
    (PyFloat.int_truediv 1 2) "https://example.com"
  = Some [].
Proof.
  intros Ht Hd. unfold recommendations. rewrite Ht, Hd. vm_compute. reflexivity.
Qed.

(** On the headings of a page the recommender always returns. *)
Lemma recommendations_returns (doc : soup) meta_data image_data load_time website_url :
  is_Some (recommendations meta_data (extract_headings doc) image_data load_time website_url).
Proof.
  unfold recommendations.
  rewrite (extract_headings_lookup doc "h1") by set_solver.
  simpl. eexists. reflexivity.
Qed.

(** Without the key 'h1' the lookup raises. *)
Example recommendations_key_error meta_data image_data load_time website_url :
  recommendations meta_data ∅ image_data load_time website_url = None.
Proof. reflexivity. Qed.

End Recommendations.

(** ** Links *)

Section Links.

Context `{Urllib}.

Implicit Types (doc : soup) (link : node) (base_url base_domain url : string).
Implicit Types (resolved : list (string * string)).

Lemma is_internal_or base_domain (nl : string) :
  bool_decide (nl = base_domain) || bool_decide (nl = "")
  = bool_decide (nl = base_domain \/ nl = "").
Proof.
  destruct (decide (nl = base_domain)) as [Hd|Hd], (decide (nl = "")) as [He|He];
    rewrite ?(bool_decide_eq_true_2 _ Hd), ?(bool_decide_eq_false_2 _ Hd),
            ?(bool_decide_eq_true_2 _ He), ?(bool_decide_eq_false_2 _ He); simpl;
    symmetry; first [ apply bool_decide_eq_true; tauto | apply bool_decide_eq_false; tauto ].
Qed.

(** One iteration of the loop, in terms of the anchor resolved. *)
Lemma analyze_links_loop_step base_url base_domain link links internal_links external_links :
  analyze_links_loop base_url base_domain (link :: links) internal_links external_links
  = r ← resolve base_url link;
    if is_internal base_domain r
    then analyze_links_loop base_url base_domain links (internal_links ++ [r.1]) external_links
    else analyze_links_loop base_url base_domain links internal_links (external_links ++ [r.1]).
Proof.
  unfold resolve. simpl.
  case_bind (get link "href") as href.
  case_bind (urljoin base_url href) as full_url.
  case_bind (urlparse full_url) as parsed.
  unfold is_internal. simpl. rewrite is_internal_or. reflexivity.
Qed.

(** The loop appends, in order, the resolved URLs to one list or the other;
    it raises exactly when one resolution does. *)
Lemma analyze_links_loop_eq base_url base_domain links internal_links external_links :
  analyze_links_loop base_url base_domain links internal_links external_links
  = resolved ← mapM (resolve base_url) links;
    Some (internal_links ++ map fst (List.filter (is_internal base_domain) resolved),
          external_links
          ++ map fst (List.filter (fun r => negb (is_internal base_domain r)) resolved)).
Proof.
  revert internal_links external_links.
  induction links as [|link links IH]; intros internal_links external_links.
  - simpl. rewrite !app_nil_r. reflexivity.
  - rewrite analyze_links_loop_step.
    change (mapM (resolve base_url) (link :: links))
      with (y ← resolve base_url link; k ← mapM (resolve base_url) links; Some (y :: k)).
    destruct (resolve base_url link) as [r|]; simpl; [|reflexivity].
    destruct (is_internal base_domain r) eqn:Hint;
      rewrite IH; destruct (mapM (resolve base_url) links) as [resolved|]; simpl;
      try reflexivity; rewrite Hint; simpl; rewrite <- app_assoc; reflexivity.
Qed.

Lemma analyze_links_eq doc base_url :
  analyze_links doc base_url
  = base ← urlparse base_url;
    resolved ← mapM (resolve base_url) (anchors_with_href doc);
    Some (map fst (List.filter (is_internal (netloc base)) resolved),
          map fst (List.filter (fun r => negb (is_internal (netloc base) r)) resolved)).
Proof.
  unfold analyze_links. destruct (urlparse base_url) as [base|]; [|reflexivity].
  cbn [mbind option_bind]. apply analyze_links_loop_eq.
Qed.

(** An anchor with an [href] never fails on the subscript [link['href']]. *)
Lemma anchors_have_href doc link :
  In link (anchors_with_href doc) -> is_Some (get link "href").
Proof.
  unfold anchors_with_href. rewrite filter_In. intros [_ Hh].
  apply bool_decide_eq_true in Hh. exact Hh.
Qed.

Lemma resolve_host base_url link url (nl : string) :
  resolve base_url link = Some (url, nl) ->
  exists parsed, urlparse url = Some parsed /\ netloc parsed = nl.
Proof.
  unfold resolve.
  case_bind (get link "href") as href.
  case_bind (urljoin base_url href) as full_url.
  destruct (urlparse full_url) as [parsed|] eqn:Hp; simpl; [|discriminate].
  intros [= <- <-]. exists parsed. split; [exact Hp | reflexivity].
Qed.

Lemma mapM_resolved base_url links resolved :
  mapM (resolve base_url) links = Some resolved ->
  forall r, In r resolved -> exists link, In link links /\ resolve base_url link = Some r.
Proof.
  intros Hres. apply mapM_Some_1 in Hres.
  induction Hres as [|link r links resolved Hr _ IH]; intros r' Hin.
  - destruct Hin.
  - destruct Hin as [<- | Hin].
    + exists link. split; [left; reflexivity | exact Hr].
    + destruct (IH r' Hin) as (link' & Hl & Hr').
      exists link'. split; [right; exact Hl | exact Hr'].
Qed.

(** The classifier returns exactly when the page URL and every resolved URL
    parse. *)
Lemma analyze_links_returns doc base_url :
  is_Some (analyze_links doc base_url)
  <-> is_Some (urlparse base_url)
      /\ List.Forall (fun link => is_Some (resolve base_url link)) (anchors_with_href doc).
Proof.
  rewrite analyze_links_eq. split.
  - destruct (urlparse base_url) as [base|]; simpl; [|intros [? [=]]].
    destruct (mapM (resolve base_url) (anchors_with_href doc)) as [resolved|] eqn:Hres;
      simpl; [|intros [? [=]]].
    intros _. split; [eexists; reflexivity|].
    apply List.Forall_forall. intros link Hl.
    assert (Hsome : is_Some (mapM (resolve base_url) (anchors_with_href doc)))
      by (rewrite Hres; eexists; reflexivity).
    apply mapM_is_Some_1 in Hsome. rewrite Forall_forall in Hsome.
    apply (Hsome link). apply list_elem_of_In, Hl.
  - intros [[base ->] Hall]. simpl.
    destruct (mapM_is_Some_2 (resolve base_url) (anchors_with_href doc)) as [resolved ->].
    + apply Forall_forall. intros link Hl. rewrite List.Forall_forall in Hall.
      apply (Hall link). apply list_elem_of_In, Hl.
    + simpl. eexists. reflexivity.
Qed.

(** C6.  The classifier returns unless the URL library raises.  When it
    returns, it has visited exactly the [a] elements with an [href], resolved
    each [href] against the page URL, and put each resolved URL, in order and
    with its repetitions, in the internal list when its host is the host of
    the page or is empty and in the external list otherwise.  So the two
    lists together have one entry per anchor with an [href], and no URL is in
    both. *)
Theorem analyze_links_partition doc base_url :
  (is_Some (analyze_links doc base_url)
   <-> is_Some (urlparse base_url)
       /\ List.Forall (fun link => is_Some (resolve base_url link)) (anchors_with_href doc)) /\
  (forall internal_links external_links,
     analyze_links doc base_url = Some (internal_links, external_links) ->
     exists base resolved,
       urlparse base_url = Some base /\
       mapM (resolve base_url) (anchors_with_href doc) = Some resolved /\
       internal_links = map fst (List.filter (is_internal (netloc base)) resolved) /\
       external_links
       = map fst (List.filter (fun r => negb (is_internal (netloc base) r)) resolved) /\
       (length internal_links + length external_links = length (anchors_with_href doc))%nat /\
       (length internal_links + length external_links
        <= length (List.filter (fun t => bool_decide (is_Some (get t "href")))
                     (find_all doc "a")))%nat /\
       (forall url, In url internal_links -> ~ In url external_links)).
Proof.
  split; [apply analyze_links_returns|].
  intros internal_links external_links. rewrite analyze_links_eq.
  destruct (urlparse base_url) as [base|]; [|discriminate]. cbn [mbind option_bind].
  destruct (mapM (resolve base_url) (anchors_with_href doc)) as [resolved|] eqn:Hres;
    [|discriminate]. cbn [mbind option_bind].
  intros [= <- <-]. exists base, resolved.
  assert (Hlen : (length (map fst (List.filter (is_internal (netloc base)) resolved))
                  + length (map fst (List.filter (fun r => negb (is_internal (netloc base) r)) resolved))
                  = length (anchors_with_href doc))%nat).
  { rewrite !length_map, filter_partition_length. symmetry. exact (length_mapM _ _ _ Hres). }
  repeat (split; [reflexivity|]).
  split; [exact Hlen|]. split; [unfold anchors_with_href in Hlen; lia|].
  intros url Hin Hex.
  apply in_map_iff in Hin as ([url1 nl1] & Hu1 & Hin).
  apply in_map_iff in Hex as ([url2 nl2] & Hu2 & Hex).
  simpl in Hu1, Hu2. subst url1 url2.
  apply filter_In in Hin as [Hin Hi]. apply filter_In in Hex as [Hex He].
  destruct (mapM_resolved _ _ _ Hres _ Hin) as (link1 & _ & Hr1).
  destruct (mapM_resolved _ _ _ Hres _ Hex) as (link2 & _ & Hr2).
  apply resolve_host in Hr1 as (p1 & Hp1 & Hn1).
  apply resolve_host in Hr2 as (p2 & Hp2 & Hn2).
  rewrite Hp1 in Hp2. injection Hp2 as <-.
  unfold is_internal in Hi, He. simpl in Hi, He.
  rewrite <- Hn2, Hn1 in He. rewrite Hi in He. discriminate He.
Qed.

End Links.

Example analyze_links_example :
  @analyze_links example_urllib linked_page "https://example.com/"
  = Some (["https://example.com/about"; "https://example.com/about"], ["https://other.com/x"]).
Proof. by_evaluation. Qed.

Lemma analyze_links_partition_witness :
  exists internal_links external_links,
    @analyze_links example_urllib linked_page "https://example.com/"
    = Some (internal_links, external_links) /\
    (length internal_links + length external_links = 3)%nat /\
    (forall url, In url internal_links -> ~ In url external_links).
Proof.
  exists ["https://example.com/about"; "https://example.com/about"], ["https://other.com/x"].
  split; [exact analyze_links_example|].
  destruct (proj2 (@analyze_links_partition example_urllib linked_page "https://example.com/")
              _ _ analyze_links_example)
    as (base & resolved & _ & _ & _ & _ & Hlen & _ & Hdisj).
  split; [exact Hlen | exact Hdisj].
Defined.

(** ** Keywords *)

(** *** The tokens *)

Section Tokens.

Implicit Types (c : ascii) (cs cur : list ascii) (s tok : string).

Lemma split_go_space cur cs1 c cs2 :
  Py.isspace c = true ->
  Py.split_go cur (cs1 ++ c :: cs2) = Py.split_go cur cs1 ++ Py.split_go [] cs2.
Proof.
  intros Hc. revert cur.
  induction cs1 as [|a cs1 IH]; intros cur; simpl.
  - rewrite Hc. destruct cur; reflexivity.
  - destruct (Py.isspace a).
    + destruct cur; [apply IH | simpl; f_equal; apply IH].
    + apply IH.
Qed.

Lemma split_go_word cur cs :
  Forall (fun c => Py.isspace c = false) cs ->
  Py.split_go cur cs
  = match rev cur ++ cs with [] => [] | w => [Py.str w] end.
Proof.
  intros Hcs. revert cur.
  induction Hcs as [|a cs Ha _ IH]; intros cur; simpl.
  - rewrite app_nil_r. destruct cur as [|x cur]; [reflexivity|].
    simpl. destruct (rev cur ++ [x]) eqn:E; [|reflexivity].
    destruct (rev cur); discriminate E.
  - rewrite Ha, IH. simpl. rewrite <- app_assoc. reflexivity.
Qed.

(** [str.split()] is determined by three equations: the empty string has no
    token, a white-space character separates the tokens on its two sides,
    and a non-empty string without white space is one token. *)
Lemma split_equations :
  Py.split "" = [] /\
  (forall cs1 c cs2,
     Py.isspace c = true ->
     Py.split (Py.str (cs1 ++ c :: cs2)) = Py.split (Py.str cs1) ++ Py.split (Py.str cs2)) /\
  (forall c cs,
     Forall (fun c => Py.isspace c = false) (c :: cs) ->
     Py.split (Py.str (c :: cs)) = [Py.str (c :: cs)]).
Proof.
  split; [reflexivity|]. split.
  - intros cs1 c cs2 Hc. unfold Py.split. rewrite !chars_str. apply split_go_space, Hc.
  - intros c cs Hcs. unfold Py.split. rewrite chars_str, split_go_word by exact Hcs.
    reflexivity.
Qed.

(** Every token is non-empty, has no white space, and is made of characters
    of the string. *)
Lemma split_go_tokens cur cs :
  Forall (fun c => Py.isspace c = false) cur ->
  Forall (fun tok => Py.chars tok <> [] /\
                     Forall (fun c => Py.isspace c = false /\ (In c cur \/ In c cs))
                       (Py.chars tok))
    (Py.split_go cur cs).
Proof.
  revert cur. induction cs as [|a cs IH]; intros cur Hcur; simpl.
  - destruct cur as [|x cur]; constructor; [|constructor].
    rewrite chars_str. split.
    + simpl. destruct (rev cur); discriminate.
    + apply List.Forall_forall. intros c Hc. apply in_rev in Hc.
      rewrite List.Forall_forall in Hcur. split; [apply Hcur, Hc | left; exact Hc].
  - destruct (Py.isspace a) eqn:Ha.
    + assert (Hrest : Forall (fun tok => Py.chars tok <> [] /\
                Forall (fun c => Py.isspace c = false /\ (In c cur \/ In c (a :: cs)))
                  (Py.chars tok)) (Py.split_go [] cs)).
      { eapply List.Forall_impl; [|apply (IH []); constructor].
        intros tok [Hne Hall]. split; [exact Hne|].
        eapply List.Forall_impl; [|exact Hall].
        intros c [Hs [[]|Hin]]. split; [exact Hs | right; right; exact Hin]. }
      destruct cur as [|x cur]; [exact Hrest|].
      constructor; [|exact Hrest].
      rewrite chars_str. split.
      * simpl. destruct (rev cur); discriminate.
      * apply List.Forall_forall. intros c Hc. apply in_rev in Hc.
        rewrite List.Forall_forall in Hcur. split; [apply Hcur, Hc | left; exact Hc].
    + eapply List.Forall_impl; [|apply (IH (a :: cur)); constructor; assumption].
      intros tok [Hne Hall]. split; [exact Hne|].
      eapply List.Forall_impl; [|exact Hall].
      intros c [Hs [[<-|Hin]|Hin]]; (split; [exact Hs|]);
        [right; left; reflexivity | left; exact Hin | right; right; exact Hin].
Qed.

Lemma split_tokens s :
  Forall (fun tok => tok <> "" /\
                     Forall (fun c => Py.isspace c = false /\ In c (Py.chars s)) (Py.chars tok))
    (Py.split s).
Proof.
  eapply List.Forall_impl; [|apply (split_go_tokens [] (Py.chars s)); constructor].
  intros tok [Hne Hall]. split.
  - intros ->. apply Hne. reflexivity.
  - eapply List.Forall_impl; [|exact Hall]. intros c [Hs [[]|Hin]]. split; assumption.
Qed.

(** A letter that [str.lower] returns is a lower-case letter. *)
Lemma lower_char_letter c :
  Py.is_ascii_letter (Py.lower_char c) = true -> Py.is_ascii_lower (Py.lower_char c) = true.
Proof.
  destruct c as [[] [] [] [] [] [] [] []]; vm_compute; intros Hc;
    first [reflexivity | discriminate Hc].
Qed.

(** The characters left by [re.sub] on the lower-cased text. *)
Lemma re_sub_lower_chars s c :
  In c (Py.chars (re_sub_non_letters (Py.lower s))) ->
  Py.isspace c = true \/ Py.is_ascii_lower c = true.
Proof.
  unfold re_sub_non_letters, Py.lower. rewrite !chars_str, filter_In, in_map_iff.
  intros [(c0 & <- & _) Hkeep].
  apply orb_true_iff in Hkeep as [Hl | Hs]; [right | left; exact Hs].
  apply lower_char_letter, Hl.
Qed.

(** The tokens of [extract_keywords] are non-empty words of lower-case
    ASCII letters. *)
Lemma keyword_tokens s :
  Forall (fun tok => tok <> "" /\ Forall (fun c => Py.is_ascii_lower c = true) (Py.chars tok))
    (Py.split (re_sub_non_letters (Py.lower s))).
Proof.
  eapply List.Forall_impl; [|apply split_tokens].
  intros tok [Hne Hall]. split; [exact Hne|].
  eapply List.Forall_impl; [|exact Hall].
  intros c [Hs Hin]. destruct (re_sub_lower_chars s c Hin) as [Hsp|Hl]; [|exact Hl].
  rewrite Hs in Hsp. discriminate Hsp.
Qed.

Lemma is_keyword_spec (word : string) :
  is_keyword word = true <-> (word ∉ stop_words) /\ 3 < Py.len word.
Proof.
  unfold is_keyword. rewrite andb_true_iff, negb_true_iff, bool_decide_eq_false, Z.ltb_lt.
  reflexivity.
Qed.

End Tokens.

(** *** The counter *)

Section CounterFacts.

Implicit Types (c : Counter.t) (w k : string) (ws : list string) (n : Z).

Lemma occurrences_app w ws ws' :
  occurrences w (ws ++ ws') = occurrences w ws + occurrences w ws'.
Proof. unfold occurrences. rewrite List.filter_app, length_app. lia. Qed.

Lemma occurrences_pos w ws : In w ws -> 1 <= occurrences w ws.
Proof.
  unfold occurrences. induction ws as [|x ws IH]; [intros []|].
  intros [-> | Hin]; simpl.
  - rewrite String.eqb_refl. simpl. lia.
  - destruct (String.eqb w x); simpl; [lia | apply IH, Hin].
Qed.

Lemma occurrences_zero w ws : ~ In w ws -> occurrences w ws = 0.
Proof.
  unfold occurrences. induction ws as [|x ws IH]; [reflexivity|].
  intros Hn. simpl. destruct (String.eqb_spec w x) as [->|Hne].
  - exfalso. apply Hn. left. reflexivity.
  - apply IH. intros Hin. apply Hn. right. exact Hin.
Qed.

Lemma first_index_lt w ws : In w ws -> (first_index w ws < length ws)%nat.
Proof.
  induction ws as [|x ws IH]; [intros []|].
  intros Hin. simpl. destruct (String.eqb_spec x w) as [->|Hne]; [lia|].
  destruct Hin as [Heq | Hin]; [contradiction|]. specialize (IH Hin). lia.
Qed.

Lemma first_index_app_l w ws ws' :
  In w ws -> first_index w (ws ++ ws') = first_index w ws.
Proof.
  induction ws as [|x ws IH]; [intros []|].
  intros Hin. simpl. destruct (String.eqb_spec x w) as [->|Hne]; [reflexivity|].
  destruct Hin as [Heq | Hin]; [contradiction|]. rewrite IH by exact Hin. reflexivity.
Qed.

Lemma first_index_app_r w ws ws' :
  ~ In w ws -> first_index w (ws ++ ws') = (length ws + first_index w ws')%nat.
Proof.
  induction ws as [|x ws IH]; [reflexivity|].
  intros Hn. simpl. destruct (String.eqb_spec x w) as [->|Hne].
  - exfalso. apply Hn. left. reflexivity.
  - rewrite IH; [reflexivity|]. intros Hin. apply Hn. right. exact Hin.
Qed.

Lemma first_index_sorted_app ws ws' (l : list string) :
  (forall k, In k l -> In k ws) ->
  StronglySorted (fun a b => (first_index a ws < first_index b ws)%nat) l ->
  StronglySorted (fun a b => (first_index a (ws ++ ws') < first_index b (ws ++ ws'))%nat) l.
Proof.
  intros Hl Hs. induction Hs as [|a l Hs IH Hall]; constructor.
  - apply IH. intros k Hk. apply Hl. right. exact Hk.
  - rewrite List.Forall_forall in Hall |- *. intros b Hb.
    rewrite !first_index_app_l; [apply Hall, Hb | |];
      apply Hl; [right; exact Hb | left; reflexivity].
Qed.

(** The keys of the counter after one more word. *)
Lemma incr_keys c w :
  map fst (Counter.incr c w)
  = if in_dec string_dec w (map fst c) then map fst c else map fst c ++ [w].
Proof.
  induction c as [|[k n] c IH]; simpl.
  - reflexivity.
  - destruct (String.eqb_spec k w) as [Heq|Hne]; simpl.
    + destruct (string_dec k w) as [_|Hn]; [reflexivity | contradiction].
    + rewrite IH. destruct (string_dec k w) as [Heq|Hn]; [contradiction|].
      destruct (in_dec string_dec w (map fst c)); reflexivity.
Qed.

(** The entries of the counter after one more word. *)
Lemma incr_entries c w k n :
  List.NoDup (map fst c) ->
  In (k, n) (Counter.incr c w)
  <-> (k <> w /\ In (k, n) c)
      \/ (k = w /\ ((exists m, In (w, m) c /\ n = m + 1) \/ (~ In w (map fst c) /\ n = 1))).
Proof.
  induction c as [|[k' n'] c IH]; intros Hnd; simpl.
  - split.
    + intros [[= <- <-] | []]. right. split; [reflexivity|]. right. split; [tauto | reflexivity].
    + intros [[_ []] | [-> [(m & [] & _) | [_ ->]]]]. left. reflexivity.
  - inversion Hnd as [|? ? Hnotin Hnd']; subst.
    destruct (String.eqb_spec k' w) as [->|Hne]; simpl.
    + split.
      * intros [[= <- <-] | Hin].
        -- right. split; [reflexivity|]. left. exists n'. split; [left; reflexivity | reflexivity].
        -- left. split; [|right; exact Hin].
           intros ->. apply Hnotin. apply in_map_iff. exists (w, n). split; [reflexivity | exact Hin].
      * intros [[Hne [[= -> ->] | Hin]] | [-> [(m & [[= ->] | Hin] & ->) | [Hn _]]]].
        -- contradiction.
        -- right. exact Hin.
        -- left. reflexivity.
        -- exfalso. apply Hnotin. apply in_map_iff. exists (w, m). split; [reflexivity | exact Hin].
        -- exfalso. apply Hn. left. reflexivity.
    + rewrite (IH Hnd'). split.
      * intros [[= <- <-] | [[Hkw Hin] | [-> [(m & Hin & ->) | [Hn ->]]]]].
        -- left. split; [exact Hne | left; reflexivity].
        -- left. split; [exact Hkw | right; exact Hin].
        -- right. split; [reflexivity|]. left. exists m. split; [right; exact Hin | reflexivity].
        -- right. split; [reflexivity|]. right. split; [|reflexivity].
           intros [Heq | Hin]; [contradiction | contradiction].
      * intros [[Hkw [[= -> ->] | Hin]] | [-> [(m & [[= -> _] | Hin] & ->) | [Hn ->]]]].
        -- left. reflexivity.
        -- right. left. split; assumption.
        -- contradiction.
        -- right. right. split; [reflexivity|]. left. exists m. split; [exact Hin | reflexivity].
        -- right. right. split; [reflexivity|]. right. split; [|reflexivity].
           intros Hin. apply Hn. right. exact Hin.
Qed.

Lemma of_list_snoc ws w :
  Counter.of_list (ws ++ [w]) = Counter.incr (Counter.of_list ws) w.
Proof. unfold Counter.of_list. rewrite foldl_app. reflexivity. Qed.

(** [Counter(words)]: one entry per distinct word, in the order in which the
    words are first met, with the number of occurrences. *)
Lemma of_list_spec ws :
  let c := Counter.of_list ws in
  List.NoDup (map fst c) /\
  (forall k n, In (k, n) c <-> In k ws /\ n = occurrences k ws) /\
  StronglySorted (fun a b => (first_index a ws < first_index b ws)%nat) (map fst c).
Proof.
  cbv zeta. induction ws as [|w ws (IHnd & IHin & IHs)] using rev_ind.
  - split; [constructor|]. split; [|constructor].
    intros k n. simpl. tauto.
  - rewrite of_list_snoc.
    assert (Hkeys : forall k, In k (map fst (Counter.of_list ws)) <-> In k ws).
    { intros k. rewrite in_map_iff. split.
      - intros ([k' n] & <- & Hin). apply IHin in Hin. tauto.
      - intros Hin. exists (k, occurrences k ws). split; [reflexivity|].
        apply IHin. tauto. }
    assert (Hs : StronglySorted
              (fun a b => (first_index a (ws ++ [w]) < first_index b (ws ++ [w]))%nat)
              (map fst (Counter.of_list ws))).
    { apply first_index_sorted_app; [|exact IHs].
      intros k Hk. apply Hkeys, Hk. }
    split; [|split].
    + rewrite incr_keys.
      destruct (in_dec string_dec w (map fst (Counter.of_list ws))) as [Hw|Hw]; [exact IHnd|].
      apply List.NoDup_app; [exact IHnd | repeat constructor; intros [] |].
      intros k Hk [<- | []]. apply Hw. exact Hk.
    + intros k n. rewrite (incr_entries _ _ _ _ IHnd), in_app_iff, occurrences_app.
      unfold occurrences at 2. simpl.
      destruct (String.eqb_spec k w) as [->|Hne]; simpl.
      * split.
        -- intros [[Hne _] | [_ [(m & Hin & ->) | [Hn ->]]]]; [contradiction | |].
           ++ apply IHin in Hin as [_ ->]. split; [right; left; reflexivity | lia].
           ++ split; [right; left; reflexivity|].
              rewrite occurrences_zero; [lia|]. intros Hin. apply Hn, Hkeys, Hin.
        -- intros [_ ->]. right. split; [reflexivity|].
           destruct (in_dec string_dec w ws) as [Hin | Hn].
           ++ left. exists (occurrences w ws). split; [apply IHin; tauto | lia].
           ++ right. split; [intros Hin; apply Hn, Hkeys, Hin|].
              rewrite occurrences_zero by exact Hn. lia.
      * split.
        -- intros [[_ Hin] | [Heq _]]; [|contradiction].
           apply IHin in Hin as [Hin ->]. split; [left; exact Hin | lia].
        -- intros [[Hin | [Heq | []]] ->]; [|congruence].
           left. split; [exact Hne|]. apply IHin. split; [exact Hin | lia].
    + rewrite incr_keys.
      destruct (in_dec string_dec w (map fst (Counter.of_list ws))) as [Hw|Hw]; [exact Hs|].
      apply StronglySorted_app_2; [|exact Hs | repeat constructor].
      intros a b Ha Hb. apply list_elem_of_In in Ha, Hb. destruct Hb as [<- | []].
      assert (Hn : ~ In w ws) by (intros Hin; apply Hw, Hkeys, Hin).
      rewrite first_index_app_l by (apply Hkeys, Ha).
      rewrite first_index_app_r by exact Hn.
      pose proof (first_index_lt a ws (proj1 (Hkeys a) Ha)). lia.
Qed.

End CounterFacts.

(** *** The ranking *)

Section Ranking.

Variable ws : list string.

Implicit Types (a b x y : string * Z) (l c : Counter.t) (n : nat).

Lemma insert_desc_perm x l : Permutation (Counter.insert_desc x l) (x :: l).
Proof.
  induction l as [|y l IH]; simpl; [reflexivity|].
  destruct (y.2 <=? x.2); [reflexivity|].
  rewrite IH. apply perm_swap.
Qed.

Lemma sorted_desc_perm c : Permutation (Counter.sorted_desc c) c.
Proof.
  induction c as [|x c IH]; simpl; [reflexivity|].
  rewrite insert_desc_perm, IH. reflexivity.
Qed.

Lemma insert_desc_sorted x l :
  StronglySorted (ranks_before ws) l ->
  List.Forall (met_before ws x) l ->
  StronglySorted (ranks_before ws) (Counter.insert_desc x l).
Proof.
  intros Hs. induction Hs as [|y l Hs IH Hy]; intros Hx; simpl.
  - repeat constructor.
  - inversion Hx as [|? ? Hxy Hxl]; subst.
    destruct (Z.leb_spec y.2 x.2) as [Hle|Hgt].
    + constructor; [constructor; assumption|].
      constructor.
      * unfold ranks_before. unfold met_before in Hxy. lia.
      * rewrite List.Forall_forall in Hy, Hxl |- *. intros z Hz.
        specialize (Hy z Hz). specialize (Hxl z Hz).
        unfold ranks_before in *. unfold met_before in Hxl. lia.
    + constructor; [apply IH, Hxl|].
      rewrite List.Forall_forall in Hy |- *. intros z Hz.
      apply (Permutation_in _ (insert_desc_perm x l)) in Hz.
      destruct Hz as [<- | Hz]; [|apply Hy, Hz].
      unfold ranks_before. lia.
Qed.

(** The stable sort of a counter in first-met order is ranked. *)
Lemma sorted_desc_sorted c :
  StronglySorted (met_before ws) c ->
  StronglySorted (ranks_before ws) (Counter.sorted_desc c).
Proof.
  intros Hs. induction Hs as [|x c Hs IH Hx]; simpl; [constructor|].
  apply insert_desc_sorted; [exact IH|].
  rewrite List.Forall_forall in Hx |- *. intros y Hy.
  apply Hx. apply (Permutation_in _ (sorted_desc_perm c)), Hy.
Qed.

End Ranking.

Section Keywords.

Implicit Types (text w : string) (top_n : nat).

Lemma of_list_met_before (words : list string) :
  StronglySorted (met_before words) (Counter.of_list words).
Proof.
  destruct (of_list_spec words) as (_ & _ & Hs). cbv zeta in Hs.
  induction (Counter.of_list words) as [|a c IH]; [constructor|].
  simpl in Hs. inversion Hs as [|? ? Hs' Ha]; subst.
  constructor; [apply IH, Hs'|].
  rewrite List.Forall_forall in Ha |- *. intros b Hb. apply Ha.
  apply in_map, Hb.
Qed.

(** The ranking of all the words, of which the result is a prefix. *)
Lemma ranking_spec (words : list string) :
  let ranking := Counter.sorted_desc (Counter.of_list words) in
  List.NoDup (map fst ranking) /\
  (forall w n, In (w, n) ranking <-> In w words /\ n = occurrences w words) /\
  StronglySorted (ranks_before words) ranking /\
  length ranking = size (list_to_set words : gset string).
Proof.
  cbv zeta. destruct (of_list_spec words) as (Hnd & Hin & _). cbv zeta in Hnd, Hin.
  pose proof (sorted_desc_perm (Counter.of_list words)) as Hperm.
  split; [|split; [|split]].
  - eapply Permutation_NoDup; [|exact Hnd].
    apply Permutation_map. symmetry. exact Hperm.
  - intros w n. rewrite <- Hin. split; apply Permutation_in; [|symmetry]; exact Hperm.
  - apply sorted_desc_sorted, of_list_met_before.
  - rewrite (Permutation_length Hperm), <- (length_map fst).
    rewrite <- (size_list_to_set (C := gset string)) by (apply NoDup_ListNoDup, Hnd).
    f_equal. apply set_eq. intros w. rewrite !elem_of_list_to_set, !list_elem_of_In.
    rewrite in_map_iff. split.
    + intros ([w' n] & <- & Hwn). apply Hin in Hwn. tauto.
    + intros Hw. exists (w, occurrences w words). split; [reflexivity|]. apply Hin. tauto.
Qed.

Lemma extract_keywords_take text top_n :
  extract_keywords text top_n
  = take top_n (Counter.sorted_desc (Counter.of_list (keyword_words text))).
Proof. reflexivity. Qed.

Lemma stop_words_size : size stop_words = 39%nat.
Proof. vm_compute. reflexivity. Qed.

(** C4, as the specification words it, fails on the size of the stop-word
    set: the set of the scripts has 39 words, not 29. *)
Lemma stop_words_are_not_29 :
  size stop_words = 39%nat /\ size stop_words <> 29%nat /\
  List.NoDup (elements stop_words) /\ length (elements stop_words) = 39%nat.
Proof.
  split; [exact stop_words_size|]. split; [rewrite stop_words_size; discriminate|].
  split; [apply NoDup_ListNoDup, NoDup_elements | exact stop_words_size].
Qed.

(** C4, amended.  The extractor lower-cases the text, deletes every
    character that is neither an ASCII letter nor white space and splits at
    white space, so the tokens are non-empty words of lower-case ASCII
    letters; it keeps the tokens that are outside the set of 39 stop words
    and longer than 3 characters; the result pairs distinct kept words with
    their numbers of occurrences, is ordered by decreasing count and, among
    equal counts, by first occurrence, and consists of the [top_n] first
    words in that order (all of them when there are fewer).  On "The quick
    brown fox jumps" the result is quick, brown, jumps, each with count 1. *)
Theorem extract_keywords_ranking text top_n :
  let cleaned := re_sub_non_letters (Py.lower text) in
  let tokens := Py.split cleaned in
  let words := List.filter is_keyword tokens in
  let result := extract_keywords text top_n in
  size stop_words = 39%nat /\
  Py.chars cleaned
  = List.filter (fun c => Py.is_ascii_letter c || Py.isspace c)
      (map Py.lower_char (Py.chars text)) /\
  List.Forall (fun tok => tok <> "" /\
                          List.Forall (fun c => Py.is_ascii_lower c = true) (Py.chars tok))
    tokens /\
  (forall w, In w words <-> In w tokens /\ (w ∉ stop_words) /\ 3 < Py.len w) /\
  List.NoDup (map fst result) /\
  (forall w n, In (w, n) result -> In w words /\ n = occurrences w words) /\
  StronglySorted (ranks_before words) result /\
  length result = Nat.min top_n (size (list_to_set words : gset string)) /\
  (forall w, In w words ->
     In (w, occurrences w words) result \/
     (length result = top_n /\
      forall r, In r result -> ranks_before words r (w, occurrences w words))) /\
  extract_keywords "The quick brown fox jumps" 20 = [("quick", 1); ("brown", 1); ("jumps", 1)] /\
  "the" ∈ stop_words /\
  is_keyword "fox" = false.
Proof.
  cbv zeta. fold (keyword_words text).
  destruct (ranking_spec (keyword_words text)) as (Hnd & Hin & Hs & Hlen). cbv zeta in *.
  set (ranking := Counter.sorted_desc (Counter.of_list (keyword_words text))) in *.
  rewrite extract_keywords_take. fold ranking.
  split; [exact stop_words_size|].
  split; [unfold re_sub_non_letters, Py.lower; rewrite !chars_str; reflexivity|].
  split; [apply keyword_tokens|].
  split.
  { intros w. unfold keyword_words. rewrite filter_In, is_keyword_spec. reflexivity. }
  split.
  { rewrite <- (take_drop top_n ranking), map_app in Hnd.
    apply NoDup_app_remove_r in Hnd. exact Hnd. }
  split.
  { intros w n Hwn. apply Hin. rewrite <- (take_drop top_n ranking).
    apply in_app_iff. left. exact Hwn. }
  split; [apply StronglySorted_take, Hs|].
  split; [rewrite length_take, Hlen; reflexivity|].
  split.
  { intros w Hw.
    assert (Hr : In (w, occurrences w (keyword_words text)) ranking) by (apply Hin; tauto).
    rewrite <- (take_drop top_n ranking) in Hr. apply in_app_iff in Hr as [Ht | Hd].
    - left. exact Ht.
    - right. split.
      + rewrite length_take. apply Nat.min_l.
        destruct (Nat.le_gt_cases top_n (length ranking)) as [Hle|Hgt]; [exact Hle|].
        rewrite drop_ge in Hd by lia. destruct Hd.
      + intros r Hr. exact (StronglySorted_take_drop _ _ _ _ _ Hs Hr Hd). }
  split; [vm_compute; reflexivity|].
  split; vm_compute; reflexivity.
Qed.

(** C5.  The result has at most [top_n] entries, and the counts never
    increase from one entry to a later one. *)
Theorem extract_keywords_bounded text top_n :
  let result := extract_keywords text top_n in
  (length result <= top_n)%nat /\
  (forall (i j : nat) a b,
     (i <= j)%nat -> result !! i = Some a -> result !! j = Some b -> b.2 <= a.2).
Proof.
  cbv zeta. rewrite extract_keywords_take. split.
  - rewrite length_take. lia.
  - intros i j a b Hij Ha Hb.
    destruct (ranking_spec (keyword_words text)) as (_ & _ & Hs & _). cbv zeta in Hs.
    apply (StronglySorted_take _ top_n) in Hs.
    destruct (Nat.eq_dec i j) as [->|Hne].
    + rewrite Ha in Hb. injection Hb as <-. lia.
    + assert (Hlt : (i < j)%nat) by lia.
      pose proof (StronglySorted_lookup _ _ _ _ _ _ Hs Hlt Ha Hb) as Hr.
      unfold ranks_before in Hr. lia.
Qed.

(** Digits and punctuation are deleted before the split, stop words and
    short words are dropped, ties keep the order of first occurrence. *)
Example extract_keywords_examples :
  Py.split (re_sub_non_letters (Py.lower "Web3.0 is HERE, today")) = ["web"; "is"; "here"; "today"] /\
  extract_keywords "beta alpha Beta gamma, alpha; with these 4 words" 20
  = [("beta", 2); ("alpha", 2); ("gamma", 1); ("words", 1)] /\
  extract_keywords "beta alpha Beta gamma, alpha; with these 4 words" 3
  = [("beta", 2); ("alpha", 2); ("gamma", 1)] /\
  extract_keywords "gamma beta alpha beta" 0 = [].
Proof. by_evaluation. Qed.

End Keywords.

(** * Further properties of the scripts *)

(** ** The score as the overview shows it *)

Section ScoreDisplay.

Import WebsiteAnalyzer.

Implicit Types (meta_data : MetaData) (image_data : ImageStats) (website_url : string).

Lemma count_passed_checks_cases meta_data image_data website_url :
  let k := count_passed (checks meta_data image_data website_url) in
  k = 0 \/ k = 1 \/ k = 2 \/ k = 3 \/ k = 4 \/ k = 5 \/ k = 6.
Proof.
  cbv zeta. apply small_count_cases.
  pose proof (count_passed_bounds (checks meta_data image_data website_url)) as Hb.
  rewrite checks_length in Hb. lia.
Qed.

(** X1.  The metric "SEO Score" shows one of seven texts, the one for the number
    of passed checks: a sixth of the checks is shown as 17%, two thirds as
    67%. *)
Theorem score_text_by_passed_checks meta_data image_data website_url :
  let k := count_passed (checks meta_data image_data website_url) in
  ["0%"; "17%"; "33%"; "50%"; "67%"; "83%"; "100%"] !! Z.to_nat k
  = Some (score_text (seo_score meta_data image_data website_url)).
Proof.
  cbv zeta. unfold seo_score.
  pose proof (count_passed_checks_cases meta_data image_data website_url) as Hk.
  cbv zeta in Hk. revert Hk.
  generalize (count_passed (checks meta_data image_data website_url)) as k.
  intros k [-> | [-> | [-> | [-> | [-> | [-> | ->]]]]]]; vm_compute; reflexivity.
Qed.

(** X2.  The delta "Good" and the message "Excellent SEO!" need five passed
    checks out of six; "Good, but can improve" is shown for exactly four, and
    "Needs improvement" for three or fewer. *)
Theorem score_labels_by_passed_checks meta_data image_data website_url :
  let k := count_passed (checks meta_data image_data website_url) in
  let score := seo_score meta_data image_data website_url in
  (score_delta score = "Good" <-> 5 <= k) /\
  (score_delta score = "Needs Work" <-> k <= 4) /\
  (seo_verdict score = "Excellent SEO!" <-> 5 <= k) /\
  (seo_verdict score = "Good, but can improve" <-> k = 4) /\
  (seo_verdict score = "Needs improvement" <-> k <= 3).
Proof.
  cbv zeta. unfold seo_score.
  pose proof (count_passed_checks_cases meta_data image_data website_url) as Hk.
  cbv zeta in Hk. revert Hk.
  generalize (count_passed (checks meta_data image_data website_url)) as k.
  intros k [-> | [-> | [-> | [-> | [-> | [-> | ->]]]]]];
    vm_compute (score_delta _); vm_compute (seo_verdict _);
    repeat split; intros Hx; first [reflexivity | discriminate Hx | lia].
Qed.

End ScoreDisplay.

(** ** The recommendations, the summary and the checklist *)

Section RecommendationFacts.

Import WebsiteAnalyzer.

Implicit Types (meta_data : MetaData) (image_data : ImageStats) (website_url : string).
Implicit Types (headings : gmap string (list string)) (load_time : PyFloat.float).
Implicit Types (recs : list Recommendation).

(** The list of the recommender as the triggered rules. *)
Lemma recommendations_rules meta_data headings image_data load_time website_url h1 :
  headings !! "h1" = Some h1 ->
  recommendations meta_data headings image_data load_time website_url
  = Some (map snd (List.filter fst (rules meta_data h1 image_data load_time website_url))).
Proof.
  intros Hh1. unfold recommendations, rules. rewrite Hh1. simpl.
  rewrite !not_between, is_nil_length, positive_ltb.
  destruct (bool_decide (title_length meta_data < 30 \/ 60 < title_length meta_data)),
    (bool_decide (description_length meta_data < 120 \/ 160 < description_length meta_data)),
    (bool_decide (length h1 = 0%nat)),
    (bool_decide (0 < without_alt image_data)),
    (PyFloat.gt_int load_time 3),
    (Py.startswith website_url "https"); reflexivity.
Qed.

Lemma recommendations_inv meta_data headings image_data load_time website_url recs :
  recommendations meta_data headings image_data load_time website_url = Some recs ->
  exists h1,
    headings !! "h1" = Some h1 /\
    recs = map snd (List.filter fst (rules meta_data h1 image_data load_time website_url)).
Proof.
  intros Hrecs. destruct (headings !! "h1") as [h1|] eqn:Hh1.
  - exists h1. split; [reflexivity|].
    rewrite (recommendations_rules _ _ _ _ _ _ Hh1) in Hrecs. injection Hrecs as <-. reflexivity.
  - unfold recommendations in Hrecs. rewrite Hh1 in Hrecs. discriminate Hrecs.
Qed.

(** Every case of the six conditions, then evaluation. *)
Ltac rule_cases meta_data h1 image_data load_time website_url :=
  unfold rules;
  destruct (bool_decide (title_length meta_data < 30 \/ 60 < title_length meta_data)) eqn:Htitle,
    (bool_decide (description_length meta_data < 120 \/ 160 < description_length meta_data)) eqn:Hdesc,
    (bool_decide (length h1 = 0%nat)) eqn:Hh,
    (bool_decide (0 < without_alt image_data)) eqn:Halt,
    (PyFloat.gt_int load_time 3) eqn:Hload,
    (Py.startswith website_url "https") eqn:Hssl; simpl.

(** X3.  The recommender never gives the priority Low, although the filter of the
    page offers it; so the three counts of the summary add up to the number
    of recommendations, with at most two Critical, three High and one
    Medium. *)
Theorem summary_counts_add_up meta_data headings image_data load_time website_url recs :
  recommendations meta_data headings image_data load_time website_url = Some recs ->
  List.Forall (fun r => priority r <> Low) recs /\
  count_priority Low recs = 0 /\
  count_priority Critical recs + count_priority High recs + count_priority Medium recs
  = Z.of_nat (length recs) /\
  count_priority Critical recs <= 2 /\
  count_priority High recs <= 3 /\
  count_priority Medium recs <= 1.
Proof.
  intros Hrecs. apply recommendations_inv in Hrecs as (h1 & _ & ->).
  rule_cases meta_data h1 image_data load_time website_url;
    (split; [repeat constructor; discriminate|]);
    unfold count_priority; simpl; lia.
Qed.

Lemma summary_counts_add_up_witness :
  exists recs,
    recommendations (extract_meta_tags sample_page) (extract_headings sample_page)
      (analyze_images sample_page) (PyFloat.int_truediv 7 2) "http://example.com" = Some recs /\
    length recs = 6%nat /\
    count_priority Critical recs + count_priority High recs + count_priority Medium recs
    = Z.of_nat (length recs).
Proof.
  eexists. split; [vm_compute; reflexivity|]. split; [reflexivity|].
  apply (summary_counts_add_up
    (extract_meta_tags sample_page) (extract_headings sample_page)
    (analyze_images sample_page) (PyFloat.int_truediv 7 2) "http://example.com").
  vm_compute. reflexivity.
Defined.

Lemma rec_in_filter (b : bool) (r : Recommendation) (others : list (bool * Recommendation)) :
  (forall b' r', In (b', r') others -> r' <> r) ->
  forall before : list (bool * Recommendation),
    (forall b' r', In (b', r') before -> r' <> r) ->
    In r (map snd (List.filter fst (before ++ (b, r) :: others))) <-> b = true.
Proof.
  intros Ho before Hb. rewrite List.filter_app, map_app, in_app_iff. split.
  - intros [Hin | Hin].
    + apply in_map_iff in Hin as ([b' r'] & Heq & Hin). simpl in Heq. subst r'.
      apply filter_In in Hin as [Hin _]. exfalso. exact (Hb _ _ Hin eq_refl).
    + simpl in Hin. destruct b; [reflexivity|].
      apply in_map_iff in Hin as ([b' r'] & Heq & Hin). simpl in Heq. subst r'.
      apply filter_In in Hin as [Hin _]. exfalso. exact (Ho _ _ Hin eq_refl).
  - intros ->. right. simpl. left. reflexivity.
Qed.

(** The rule for an entry decides its presence: the entries of the six
    rules are different from each other. *)
Lemma recommendation_present meta_data h1 image_data load_time website_url :
  let recs := map snd (List.filter fst (rules meta_data h1 image_data load_time website_url)) in
  (In rec_title recs <-> between 30 (title_length meta_data) 60 = false) /\
  (In rec_description recs <-> between 120 (description_length meta_data) 160 = false) /\
  (In rec_h1 recs <-> h1 = []) /\
  (In (rec_alt (without_alt image_data)) recs <-> 0 < without_alt image_data) /\
  (In rec_load recs <-> PyFloat.gt_int load_time 3 = true) /\
  (In rec_ssl recs <-> Py.startswith website_url "https" = false).
Proof.
  cbv zeta. unfold rules.
  assert (Hne : forall n,
            rec_title <> rec_description /\ rec_title <> rec_h1 /\ rec_title <> rec_alt n /\
            rec_title <> rec_load /\ rec_title <> rec_ssl /\ rec_description <> rec_h1 /\
            rec_description <> rec_alt n /\ rec_description <> rec_load /\
            rec_description <> rec_ssl /\ rec_h1 <> rec_alt n /\ rec_h1 <> rec_load /\
            rec_h1 <> rec_ssl /\ rec_alt n <> rec_load /\ rec_alt n <> rec_ssl /\
            rec_load <> rec_ssl).
  { intros n. unfold rec_alt. repeat split; discriminate. }
  destruct (Hne (without_alt image_data))
    as (H12 & H13 & H14 & H15 & H16 & H23 & H24 & H25 & H26 & H34 & H35 & H36 & H45 & H46 & H56).
  set (c1 := bool_decide (title_length meta_data < 30 \/ 60 < title_length meta_data)).
  set (c2 := bool_decide (description_length meta_data < 120 \/ 160 < description_length meta_data)).
  set (c3 := bool_decide (length h1 = 0%nat)).
  set (c4 := bool_decide (0 < without_alt image_data)).
  set (c5 := PyFloat.gt_int load_time 3).
  set (c6 := negb (Py.startswith website_url "https")).
  set (r4 := rec_alt (without_alt image_data)) in *.
  assert (Hothers : forall (r : Recommendation) (l : list (bool * Recommendation)),
            List.Forall (fun e => e.2 <> r) l -> forall b' r', In (b', r') l -> r' <> r).
  { intros r l Hl b' r' Hin. rewrite List.Forall_forall in Hl. exact (Hl _ Hin). }
  split; [|split; [|split; [|split; [|split]]]].
  - etransitivity;
      [apply (rec_in_filter c1 rec_title
                [(c2, rec_description); (c3, rec_h1); (c4, r4); (c5, rec_load); (c6, rec_ssl)])
         with (before := []); apply Hothers; repeat constructor; simpl; auto|].
    subst c1. rewrite <- not_between. apply negb_true_iff.
  - etransitivity;
      [apply (rec_in_filter c2 rec_description
                [(c3, rec_h1); (c4, r4); (c5, rec_load); (c6, rec_ssl)])
         with (before := [(c1, rec_title)]); apply Hothers; repeat constructor; simpl; auto|].
    subst c2. rewrite <- not_between. apply negb_true_iff.
  - etransitivity;
      [apply (rec_in_filter c3 rec_h1 [(c4, r4); (c5, rec_load); (c6, rec_ssl)])
         with (before := [(c1, rec_title); (c2, rec_description)]);
       apply Hothers; repeat constructor; simpl; auto|].
    subst c3. rewrite bool_decide_eq_true. apply length_zero_iff_nil.
  - etransitivity;
      [apply (rec_in_filter c4 r4 [(c5, rec_load); (c6, rec_ssl)])
         with (before := [(c1, rec_title); (c2, rec_description); (c3, rec_h1)]);
       apply Hothers; repeat constructor; simpl; auto|].
    subst c4. apply bool_decide_eq_true.
  - etransitivity;
      [apply (rec_in_filter c5 rec_load [(c6, rec_ssl)])
         with (before := [(c1, rec_title); (c2, rec_description); (c3, rec_h1); (c4, r4)]);
       apply Hothers; repeat constructor; simpl; auto|].
    reflexivity.
  - etransitivity;
      [apply (rec_in_filter c6 rec_ssl [])
         with (before := [(c1, rec_title); (c2, rec_description); (c3, rec_h1); (c4, r4);
                          (c5, rec_load)]);
       apply Hothers; repeat constructor; simpl; auto|].
    subst c6. apply negb_true_iff.
Qed.

(** X4.  The checklist and the recommender agree on the title length, the
    description length and https: the recommendation is given exactly when
    the check of the same name fails. *)
Theorem recommendations_match_failed_checks
    meta_data headings image_data load_time website_url recs :
  recommendations meta_data headings image_data load_time website_url = Some recs ->
  let cs := checks meta_data image_data website_url in
  (In rec_title recs <-> cs !! 1%nat = Some ("Title length optimal", false)) /\
  (In rec_description recs <-> cs !! 3%nat = Some ("Description length optimal", false)) /\
  (In rec_ssl recs <-> cs !! 4%nat = Some ("SSL enabled", false)).
Proof.
  intros Hrecs. apply recommendations_inv in Hrecs as (h1 & _ & ->). cbv zeta.
  destruct (recommendation_present meta_data h1 image_data load_time website_url)
    as (Ht & Hd & _ & _ & _ & Hs). cbv zeta in Ht, Hd, Hs.
  rewrite Ht, Hd, Hs. unfold checks. simpl.
  repeat split; intros Hx; first [rewrite Hx; reflexivity | injection Hx as ->; reflexivity].
Qed.

Lemma recommendations_match_failed_checks_witness :
  exists recs,
    recommendations (extract_meta_tags sample_page) (extract_headings sample_page)
      (analyze_images sample_page) (PyFloat.int_truediv 7 2) "https://example.com" = Some recs /\
    In rec_title recs /\ ~ In rec_ssl recs.
Proof.
  eexists. split; [vm_compute; reflexivity|].
  destruct (recommendations_match_failed_checks
    (extract_meta_tags sample_page) (extract_headings sample_page)
    (analyze_images sample_page) (PyFloat.int_truediv 7 2) "https://example.com" _ eq_refl)
    as (Ht & _ & Hs).
  split.
  - apply Ht. vm_compute. reflexivity.
  - intros Hin. apply Hs in Hin. vm_compute in Hin. discriminate Hin.
Defined.

Lemma as_ratio_den (x : PyFloat.float) (n d : Z) :
  PyFloat.as_ratio x = Some (n, d) -> 0 < d.
Proof.
  destruct x as [s | s | | s m e]; simpl; try discriminate.
  - intros [= <- <-]. lia.
  - destruct (0 <=? e) eqn:He; intros [= <- <-]; [lia|].
    apply Z.leb_gt in He. apply Z.pow_pos_nonneg; lia.
Qed.

Lemma lt_gt_int_finite (x : PyFloat.float) (a n d : Z) :
  PyFloat.is_finite x = true ->
  PyFloat.as_ratio x = Some (n, d) ->
  PyFloat.lt_int x a = (n <? a * d) /\
  PyFloat.gt_int x a = (a * d <? n) /\
  ((PyFloat.to_Q x == inject_Z a)%Q <-> n = a * d).
Proof.
  intros Hfin Hr. pose proof (as_ratio_den _ _ _ Hr) as Hd.
  unfold PyFloat.lt_int, PyFloat.gt_int, PyFloat.to_Q. rewrite Hr.
  unfold Qeq. cbn [Qnum Qden inject_Z]. rewrite Z2Pos.id by exact Hd.
  destruct x; try discriminate Hfin; repeat split; lia.
Qed.

(** A float and an integer compare in one of three ways, but for
    not-a-number, which is neither below, nor above, nor equal. *)
Lemma lt_gt_int_cases (x : PyFloat.float) (a : Z) :
  (PyFloat.lt_int x a = true -> PyFloat.gt_int x a = false) /\
  (PyFloat.lt_int x a = false /\ PyFloat.gt_int x a = false
   <-> x = S754_nan
       \/ (PyFloat.is_finite x = true /\ (PyFloat.to_Q x == inject_Z a)%Q)).
Proof.
  destruct (PyFloat.is_finite x) eqn:Hfin.
  - assert (Hr : exists n d, PyFloat.as_ratio x = Some (n, d)).
    { destruct x as [s | s | | s m e]; try discriminate Hfin; simpl; [eauto|].
      destruct (0 <=? e); eauto. }
    destruct Hr as (n & d & Hr).
    destruct (lt_gt_int_finite x a n d Hfin Hr) as (-> & -> & ->).
    destruct (Z.ltb_spec n (a * d)), (Z.ltb_spec (a * d) n); try lia.
    + split; [reflexivity|]. split; [intros [[=] _]|].
      intros [-> | [_ Heq]]; [discriminate Hfin | lia].
    + split; [discriminate|]. split; [intros [_ [=]]|].
      intros [-> | [_ Heq]]; [discriminate Hfin | lia].
  - destruct x as [s | [] | | s m e]; try discriminate Hfin; cbn.
    + split; [reflexivity|]. split; [intros [[=] _] | intros [[=] | [[=] _]]].
    + split; [discriminate|]. split; [intros [_ [=]] | intros [[=] | [[=] _]]].
    + split; [discriminate|]. split; [intros _; left; reflexivity | intros _; split; reflexivity].
Qed.

(** X5.  The delta of the load time and the recommendation on it disagree at
    three seconds: a page is "Fast" below 3 and gets the recommendation above
    3, so a "Fast" page never gets it, and a page is "Slow" without the
    recommendation exactly when the time is 3 (or not a number). *)
Theorem load_delta_and_recommendation
    meta_data headings image_data load_time website_url recs :
  recommendations meta_data headings image_data load_time website_url = Some recs ->
  (In rec_load recs <-> PyFloat.gt_int load_time 3 = true) /\
  (load_delta load_time = "Fast" -> ~ In rec_load recs) /\
  (load_delta load_time = "Slow" /\ ~ In rec_load recs
   <-> load_time = S754_nan
       \/ (PyFloat.is_finite load_time = true /\ (PyFloat.to_Q load_time == 3)%Q)).
Proof.
  intros Hrecs. apply recommendations_inv in Hrecs as (h1 & _ & ->).
  destruct (recommendation_present meta_data h1 image_data load_time website_url)
    as (_ & _ & _ & _ & Hl & _). cbv zeta in Hl.
  rewrite Hl. split; [reflexivity|].
  destruct (lt_gt_int_cases load_time 3) as [Hlt Hcases].
  rewrite <- Hcases. unfold load_delta.
  destruct (PyFloat.lt_int load_time 3) eqn:Hlt'.
  - split.
    + intros _. rewrite (Hlt eq_refl). discriminate.
    + split; [intros [[=] _] | intros [[=] _]].
  - split; [discriminate|]. split.
    + intros [_ Hn]. split; [reflexivity|]. apply not_true_is_false, Hn.
    + intros [_ Hg]. split; [reflexivity|]. rewrite Hg. discriminate.
Qed.

Lemma load_delta_and_recommendation_witness :
  exists recs,
    recommendations (extract_meta_tags sample_page) (extract_headings sample_page)
      (analyze_images sample_page) (PyFloat.of_int 3) "https://example.com" = Some recs /\
    load_delta (PyFloat.of_int 3) = "Slow" /\ ~ In rec_load recs.
Proof.
  eexists. split; [vm_compute; reflexivity|].
  apply (load_delta_and_recommendation
    (extract_meta_tags sample_page) (extract_headings sample_page)
    (analyze_images sample_page) (PyFloat.of_int 3) "https://example.com" _ eq_refl).
  right. split; vm_compute; reflexivity.
Defined.

End RecommendationFacts.

(** ** The quick statistics on headings *)

Section HeadingStats.

Import WebsiteAnalyzer.

Implicit Types (doc : soup) (headings : gmap string (list string)).

Lemma add_count_comm (j1 j2 : string) (z1 z2 y : Z) : y + z2 + z1 = y + z1 + z2.
Proof. lia. Qed.

(** The total is the sum of the lengths of all the lists: the levels left
    out of [heading_counts] are those with an empty list. *)
Lemma total_headings_sum headings :
  total_headings headings
  = map_fold (fun _ content acc => acc + Z.of_nat (length content)) 0 headings.
Proof.
  unfold total_headings, heading_counts.
  induction headings as [|key content headings Hkey IH] using map_ind.
  - rewrite map_filter_empty, fmap_empty, !map_fold_empty. reflexivity.
  - rewrite (map_fold_insert_L _ _ _ _ headings) by (intros; lia || exact Hkey).
    rewrite map_filter_insert. case_decide as Hcontent.
    + rewrite fmap_insert, map_fold_insert_L.
      * rewrite IH. reflexivity.
      * intros. lia.
      * rewrite lookup_fmap, map_lookup_filter_None_2; [reflexivity|]. left. exact Hkey.
    + rewrite delete_id by exact Hkey. rewrite IH.
      assert (Hnil : content = []) by exact Hcontent.
      rewrite Hnil. simpl. lia.
Qed.

Lemma heading_levels_exclusive (n : node) :
  (Z.b2z (is_tag "h1" n) + Z.b2z (is_tag "h2" n) + Z.b2z (is_tag "h3" n)
   + Z.b2z (is_tag "h4" n) + Z.b2z (is_tag "h5" n) + Z.b2z (is_tag "h6" n)
   = Z.b2z (is_heading n)).
Proof.
  unfold is_heading. destruct n as [s | s | nm attrs contents]; simpl; try reflexivity.
  destruct (String.eqb_spec nm "h1") as [->|?]; [reflexivity|].
  destruct (String.eqb_spec nm "h2") as [->|?]; [reflexivity|].
  destruct (String.eqb_spec nm "h3") as [->|?]; [reflexivity|].
  destruct (String.eqb_spec nm "h4") as [->|?]; [reflexivity|].
  destruct (String.eqb_spec nm "h5") as [->|?]; [reflexivity|].
  destruct (String.eqb_spec nm "h6") as [->|?]; reflexivity.
Qed.

Lemma filter_length_b2z {A : Type} (f : A -> bool) (l : list A) :
  Z.of_nat (length (List.filter f l)) = foldr (fun x acc => Z.b2z (f x) + acc) 0 l.
Proof.
  induction l as [|x l IH]; simpl; [reflexivity|].
  destruct (f x); simpl; lia.
Qed.

Lemma heading_levels_total (l : list node) :
  Z.of_nat (length (List.filter (is_tag "h1") l)) + Z.of_nat (length (List.filter (is_tag "h2") l))
  + Z.of_nat (length (List.filter (is_tag "h3") l)) + Z.of_nat (length (List.filter (is_tag "h4") l))
  + Z.of_nat (length (List.filter (is_tag "h5") l)) + Z.of_nat (length (List.filter (is_tag "h6") l))
  = Z.of_nat (length (List.filter is_heading l)).
Proof.
  rewrite !filter_length_b2z. induction l as [|n l IH]; simpl; [reflexivity|].
  pose proof (heading_levels_exclusive n). lia.
Qed.

Lemma extract_headings_key doc (key : string) (texts : list string) :
  extract_headings doc !! key = Some texts -> key ∈ ["h1"; "h2"; "h3"; "h4"; "h5"; "h6"].
Proof.
  intros Hlook. rewrite extract_headings_unfold in Hlook. cbv zeta in Hlook.
  repeat (rewrite lookup_insert in Hlook; case_decide; [subst key; set_solver|]).
  by rewrite lookup_empty in Hlook.
Qed.

(** X6.  "Total Headings" counts every heading element of the page once; the
    chart of the heading distribution has a bar per level that occurs, with a
    positive count, and none ("No heading tags found") exactly when the page
    has no heading element. *)
Theorem total_headings_counts_elements doc :
  let headings := extract_headings doc in
  total_headings headings = Z.of_nat (length (List.filter is_heading (soup_descendants doc))) /\
  (forall (key : string) (n : Z),
     heading_counts headings !! key = Some n
     <-> key ∈ ["h1"; "h2"; "h3"; "h4"; "h5"; "h6"]
         /\ n = Z.of_nat (length (find_all doc key)) /\ 0 < n) /\
  (heading_counts headings = ∅ <-> List.filter is_heading (soup_descendants doc) = []).
Proof.
  cbv zeta.
  assert (Htotal : total_headings (extract_headings doc)
                   = Z.of_nat (length (List.filter is_heading (soup_descendants doc)))).
  { rewrite total_headings_sum, extract_headings_unfold. cbv zeta.
    repeat (rewrite map_fold_insert_L; [| intros; lia | by simplify_map_eq]).
    rewrite map_fold_empty, !length_map. unfold find_all.
    rewrite <- heading_levels_total. lia. }
  assert (Hcount : forall (key : string) (n : Z),
     heading_counts (extract_headings doc) !! key = Some n
     <-> key ∈ ["h1"; "h2"; "h3"; "h4"; "h5"; "h6"]
         /\ n = Z.of_nat (length (find_all doc key)) /\ 0 < n).
  { intros key n. unfold heading_counts.
    rewrite lookup_fmap, fmap_Some. setoid_rewrite map_lookup_filter_Some. simpl. split.
    - intros (content & [Hlook Hne] & ->).
      pose proof (extract_headings_key doc key content Hlook) as Hkey.
      rewrite (extract_headings_lookup doc key Hkey) in Hlook. injection Hlook as <-.
      split; [exact Hkey|]. rewrite length_map. split; [reflexivity|].
      destruct (find_all doc key); [contradiction | simpl; lia].
    - intros (Hkey & -> & Hpos).
      exists (map (fun tag => Py.strip (text tag)) (find_all doc key)).
      rewrite length_map. split; [|reflexivity].
      split; [apply extract_headings_lookup, Hkey|].
      destruct (find_all doc key); [simpl in Hpos; lia | discriminate]. }
  split; [exact Htotal|]. split; [exact Hcount|].
  split.
  - intros Hempty.
    assert (Hz : Z.of_nat (length (List.filter is_heading (soup_descendants doc))) = 0).
    { rewrite <- Htotal. unfold total_headings. rewrite Hempty, map_fold_empty. reflexivity. }
    apply length_zero_iff_nil. lia.
  - intros Hnone. apply map_eq. intros key. rewrite lookup_empty.
    destruct (heading_counts (extract_headings doc) !! key) as [n|] eqn:Hlook; [|reflexivity].
    apply Hcount in Hlook as (Hkey & -> & Hpos). exfalso.
    pose proof (heading_levels_total (soup_descendants doc)) as Hsum.
    rewrite Hnone in Hsum. simpl in Hsum. unfold find_all in Hpos.
    repeat (apply elem_of_cons in Hkey as [-> | Hkey]; [lia|]).
    by apply elem_of_nil in Hkey.
Qed.

End HeadingStats.

(** ** From the page to the checklist and the recommendations *)

Section PageFacts.

Import WebsiteAnalyzer.

Implicit Types (doc : soup) (image_data : ImageStats) (website_url : string).
Implicit Types (load_time : PyFloat.float).

Lemma without_alt_count doc :
  without_alt (analyze_images doc)
  = Z.of_nat (length (List.filter (fun img => negb (Py.truthy (get img "alt")))
                        (find_all doc "img"))).
Proof.
  pose proof (with_alt_count doc) as Hw.
  pose proof (filter_partition_length (fun img => Py.truthy (get img "alt")) (find_all doc "img"))
    as Hlen.
  assert (Hwo : without_alt (analyze_images doc)
                = Z.of_nat (length (find_all doc "img")) - with_alt (analyze_images doc))
    by reflexivity.
  lia.
Qed.

(** X7.  On the data extracted from a page the recommender always returns; it
    asks for H1 tags exactly when the page has no [h1] element, and for alt
    text exactly when some [img] element has no alt or an empty one, with the
    number of those images in the entry. *)
Theorem page_recommendations doc load_time website_url :
  exists recs,
    recommendations (extract_meta_tags doc) (extract_headings doc) (analyze_images doc)
      load_time website_url = Some recs /\
    (In rec_h1 recs <-> find_all doc "h1" = []) /\
    (In (rec_alt (without_alt (analyze_images doc))) recs
     <-> exists img, In img (find_all doc "img") /\ ~ has_alt img) /\
    without_alt (analyze_images doc)
    = Z.of_nat (length (List.filter (fun img => negb (Py.truthy (get img "alt")))
                          (find_all doc "img"))).
Proof.
  assert (Hh1 : extract_headings doc !! "h1"
                = Some (map (fun tag => Py.strip (text tag)) (find_all doc "h1")))
    by (apply extract_headings_lookup; set_solver).
  eexists. split; [apply (recommendations_rules _ _ _ _ _ _ Hh1)|].
  destruct (recommendation_present (extract_meta_tags doc)
              (map (fun tag => Py.strip (text tag)) (find_all doc "h1"))
              (analyze_images doc) load_time website_url)
    as (_ & _ & Hh & Ha & _ & _). cbv zeta in Hh, Ha.
  split; [|split; [|apply without_alt_count]].
  - rewrite Hh. split.
    + intros Hnil. apply map_eq_nil in Hnil. exact Hnil.
    + intros ->. reflexivity.
  - rewrite Ha, without_alt_count. split.
    + intros Hpos.
      destruct (List.filter (fun img => negb (Py.truthy (get img "alt"))) (find_all doc "img"))
        as [|img l] eqn:Hf; [simpl in Hpos; lia|].
      assert (Hin : In img (List.filter (fun img => negb (Py.truthy (get img "alt")))
                              (find_all doc "img"))) by (rewrite Hf; left; reflexivity).
      apply filter_In in Hin as [Hin Hno]. exists img. split; [exact Hin|].
      intros Halt. apply truthy_spec in Halt. rewrite Halt in Hno. discriminate Hno.
    + intros (img & Hin & Hno).
      assert (Hf : In img (List.filter (fun img => negb (Py.truthy (get img "alt")))
                             (find_all doc "img"))).
      { apply filter_In. split; [exact Hin|]. apply negb_true_iff, not_true_is_false.
        intros Ht. apply Hno, truthy_spec, Ht. }
      destruct (List.filter (fun img => negb (Py.truthy (get img "alt"))) (find_all doc "img"));
        [destruct Hf | simpl; lia].
Qed.

Lemma content_or_nonempty (tag : option node) (sentinel : string) :
  sentinel <> "" -> content_or tag sentinel <> "".
Proof.
  intros Hs. unfold content_or. destruct tag as [t|]; [|exact Hs].
  destruct (get t "content") as [c|]; simpl; [|exact Hs].
  destruct (String.eqb_spec c "") as [->|Hc]; simpl; [exact Hs | exact Hc].
Qed.

Lemma content_or_spec (tag : option node) (sentinel : string) :
  sentinel <> "" ->
  content_or tag sentinel <> sentinel
  <-> exists t c, tag = Some t /\ get t "content" = Some c /\ c <> "" /\ c <> sentinel.
Proof.
  intros Hs. unfold content_or. split.
  - destruct tag as [t|]; [|intros Hn; contradiction].
    destruct (get t "content") as [c|] eqn:Hc; simpl; [|intros Hn; contradiction].
    destruct (String.eqb_spec c "") as [->|Hne]; simpl; [intros Hn; contradiction|].
    intros Hn. exists t, c. rewrite Hc. repeat split; assumption.
  - intros (t & c & -> & Hc & Hne & Hn). rewrite Hc. simpl.
    apply String.eqb_neq in Hne. rewrite Hne. simpl. exact Hn.
Qed.

(** X8.  The check "Title tag present" passes exactly when the page has a
    [title] element whose trimmed text is not the sentinel, an empty title
    included; "Meta description present" passes exactly when the first
    [meta name="description"] element has a non-empty content that is not the
    sentinel. *)
Theorem presence_checks doc image_data website_url :
  let cs := checks (extract_meta_tags doc) image_data website_url in
  (cs !! 0%nat = Some ("Title tag present", true)
   <-> exists t, find doc "title" = Some t /\ Py.strip (text t) <> "No title found") /\
  (cs !! 2%nat = Some ("Meta description present", true)
   <-> exists tag content,
         find_attr doc "meta" "name" "description" = Some tag /\
         get tag "content" = Some content /\
         content <> "" /\ content <> "No description found") /\
  (forall t, find doc "title" = Some t -> Py.strip (text t) = "" ->
     cs !! 0%nat = Some ("Title tag present", true)
     /\ title_length (extract_meta_tags doc) = 0).
Proof.
  cbv zeta. unfold checks. simpl. split; [|split].
  - split.
    + intros [= Hne]. apply negb_true_iff, String.eqb_neq in Hne.
      destruct (find doc "title") as [t|]; [|contradiction].
      exists t. split; [reflexivity | exact Hne].
    + intros (t & Ht & Hne). rewrite Ht. do 2 f_equal.
      apply negb_true_iff, String.eqb_neq, Hne.
  - rewrite <- (content_or_spec _ "No description found") by discriminate. split.
    + intros [= Hne]. apply negb_true_iff, String.eqb_neq in Hne. exact Hne.
    + intros Hne. do 2 f_equal. apply negb_true_iff, String.eqb_neq, Hne.
  - intros t Ht Hempty. rewrite Ht, Hempty. split; reflexivity.
Qed.

(** X9.  The description, the keywords and the two Open Graph fields are never
    empty strings: an absent or empty attribute gives the sentinel.  The title
    is trimmed, and may be empty. *)
Theorem metadata_fields_not_empty doc :
  let meta_data := extract_meta_tags doc in
  description meta_data <> "" /\
  meta_keywords meta_data <> "" /\
  og_title meta_data <> "" /\
  og_description meta_data <> "" /\
  1 <= description_length meta_data /\
  trimmed (title meta_data).
Proof.
  cbv zeta. unfold extract_meta_tags. simpl.
  repeat (split; [apply content_or_nonempty; discriminate|]).
  split.
  - unfold Py.len.
    pose proof (content_or_nonempty (find_attr doc "meta" "name" "description")
                  "No description found") as Hne.
    destruct (content_or (find_attr doc "meta" "name" "description") "No description found");
      [exfalso; apply Hne; [discriminate | reflexivity] | simpl; lia].
  - destruct (find doc "title") as [t|]; [apply strip_trimmed|].
    split; intros c cs Hc.
    + vm_compute in Hc. injection Hc as <- _. reflexivity.
    + apply (f_equal (fun l => List.last l " "%char)) in Hc.
      rewrite List.last_last in Hc. subst c. reflexivity.
Qed.

End PageFacts.

(** ** More on the keywords *)

Section KeywordFacts.

Import WebsiteAnalyzer.

Implicit Types (text : string) (top_n : nat) (c : ascii) (cs cur : list ascii).


Lemma lower_char_space c : Py.isspace (Py.lower_char c) = Py.isspace c.
Proof. destruct c as [[] [] [] [] [] [] [] []]; vm_compute; reflexivity. Qed.


Lemma cleaned_chars text :
  Py.chars (re_sub_non_letters (Py.lower text))
  = List.filter (fun c => Py.is_ascii_letter c || Py.isspace c)
      (map Py.lower_char (Py.chars text)).
Proof. unfold re_sub_non_letters, Py.lower. rewrite !chars_str. reflexivity. Qed.



Lemma clean_chars_rev cs : clean_chars (rev cs) = rev (clean_chars cs).
Proof.
  unfold clean_chars. induction cs as [|c cs IH]; [reflexivity|]. simpl.
  rewrite map_app, List.filter_app, IH. simpl.
  destruct (Py.is_ascii_letter (Py.lower_char c)); simpl; [reflexivity|].
  rewrite app_nil_r. reflexivity.
Qed.

Lemma letter_not_space c : Py.is_ascii_letter c = true -> Py.isspace c = false.
Proof. destruct c as [[] [] [] [] [] [] [] []]; vm_compute; intros H; first [reflexivity | discriminate H]. Qed.

(** The tokens of the cleaned text are the cleaned tokens of the text. *)
Lemma split_go_cleaned cur cs :
  Py.split_go (clean_chars cur)
    (List.filter (fun c => Py.is_ascii_letter c || Py.isspace c) (map Py.lower_char cs))
  = omap clean_token (Py.split_go cur cs).
Proof.
  assert (Hemit : forall cur,
            omap clean_token [Py.str (rev cur)]
            = match clean_chars cur with [] => [] | _ => [Py.str (rev (clean_chars cur))] end).
  { intros l. simpl. unfold clean_token. rewrite chars_str, clean_chars_rev.
    destruct (clean_chars l) as [|a l'] eqn:Hl; [reflexivity|].
    destruct (rev (a :: l')) eqn:Hr; [|reflexivity].
    apply (f_equal (@length ascii)) in Hr. rewrite length_rev in Hr. discriminate Hr. }
  revert cur. induction cs as [|c cs IH]; intros cur.
  - simpl. destruct cur as [|x cur]; [reflexivity|].
    rewrite (Hemit (x :: cur)). reflexivity.
  - simpl. destruct (Py.isspace c) eqn:Hsp.
    + rewrite lower_char_space, Hsp, orb_true_r. simpl.
      rewrite lower_char_space, Hsp.
      destruct cur as [|x cur].
      * simpl. apply (IH []).
      * change (Py.str (rev (x :: cur)) :: Py.split_go [] cs)
          with ([Py.str (rev (x :: cur))] ++ Py.split_go [] cs).
        rewrite (omap_app clean_token [Py.str (rev (x :: cur))] (Py.split_go [] cs)).
        rewrite (Hemit (x :: cur)), <- (IH []).
        destruct (clean_chars (x :: cur)); reflexivity.
    + rewrite lower_char_space, Hsp, orb_false_r.
      destruct (Py.is_ascii_letter (Py.lower_char c)) eqn:Hl.
      * simpl. rewrite lower_char_space, Hsp, <- IH.
        unfold clean_chars. simpl. rewrite Hl. reflexivity.
      * rewrite <- IH. unfold clean_chars. simpl. rewrite Hl. reflexivity.
Qed.

Lemma cleaned_tokens text :
  Py.split (re_sub_non_letters (Py.lower text)) = omap clean_token (Py.split text).
Proof. unfold Py.split. rewrite cleaned_chars. apply (split_go_cleaned []). Qed.

Lemma length_omap_le {A B : Type} (f : A -> option B) (l : list A) :
  (length (omap f l) <= length l)%nat.
Proof.
  induction l as [|x l IH]; [reflexivity|].
  change (x :: l) with ([x] ++ l). rewrite omap_app, !length_app.
  assert (length (omap f [x]) <= 1)%nat by (simpl; destruct (f x); simpl; lia).
  simpl (length [x]). lia.
Qed.

Lemma keyword_words_length text :
  Z.of_nat (length (keyword_words text)) <= total_words text.
Proof.
  unfold keyword_words, total_words. cbv zeta. rewrite cleaned_tokens.
  pose proof (List.filter_length_le is_keyword (omap clean_token (Py.split text))).
  pose proof (length_omap_le clean_token (Py.split text)). lia.
Qed.

Lemma sum_counts_incr (c : Counter.t) (w : string) :
  sum_counts (Counter.incr c w) = sum_counts c + 1.
Proof.
  induction c as [|[k n] c IH]; simpl; [reflexivity|].
  destruct (String.eqb k w); simpl; lia.
Qed.

Lemma sum_counts_of_list (words : list string) :
  sum_counts (Counter.of_list words) = Z.of_nat (length words).
Proof.
  induction words as [|w words IH] using rev_ind; [reflexivity|].
  rewrite of_list_snoc, sum_counts_incr, IH, length_app. simpl. lia.
Qed.

Lemma sum_counts_perm (l l' : list (string * Z)) :
  Permutation l l' -> sum_counts l = sum_counts l'.
Proof. induction 1; simpl; lia. Qed.

Lemma sum_counts_app (l l' : list (string * Z)) :
  sum_counts (l ++ l') = sum_counts l + sum_counts l'.
Proof. induction l as [|e l IH]; simpl; lia. Qed.

Lemma sum_counts_nonneg (l : list (string * Z)) :
  List.Forall (fun e => 0 <= e.2) l -> 0 <= sum_counts l.
Proof. induction 1; simpl; lia. Qed.

Lemma sum_counts_member (l : list (string * Z)) (e : string * Z) :
  List.Forall (fun e => 0 <= e.2) l -> In e l -> e.2 <= sum_counts l.
Proof.
  induction 1 as [|x l Hx Hl IH]; [intros []|].
  pose proof (sum_counts_nonneg l Hl).
  intros [<- | Hin]; simpl; [lia | specialize (IH Hin); lia].
Qed.

(** X11.  The frequencies of the result add up to at most the number of kept
    words, which is at most the metric "Total Words" of the page; they add up
    to exactly the number of kept words when [top_n] covers all the distinct
    words.  Each frequency is at least 1. *)
Theorem keyword_frequencies_within_total_words text top_n :
  let result := extract_keywords text top_n in
  sum_counts result <= Z.of_nat (length (keyword_words text)) /\
  Z.of_nat (length (keyword_words text)) <= total_words text /\
  List.Forall (fun entry => 1 <= entry.2 <= total_words text) result /\
  ((size (list_to_set (keyword_words text) : gset string) <= top_n)%nat ->
   sum_counts result = Z.of_nat (length (keyword_words text))).
Proof.
  cbv zeta. rewrite extract_keywords_take.
  destruct (ranking_spec (keyword_words text)) as (_ & Hin & _ & Hlen). cbv zeta in Hin, Hlen.
  set (ranking := Counter.sorted_desc (Counter.of_list (keyword_words text))) in *.
  assert (Hsum : sum_counts ranking = Z.of_nat (length (keyword_words text))).
  { unfold ranking. rewrite (sum_counts_perm _ _ (sorted_desc_perm _)). apply sum_counts_of_list. }
  assert (Hpos : List.Forall (fun e => 1 <= e.2) ranking).
  { apply List.Forall_forall. intros [w n] Hwn. apply Hin in Hwn as [Hw ->].
    apply occurrences_pos, Hw. }
  assert (Hnn : forall l, List.Forall (fun e : string * Z => 1 <= e.2) l ->
                          List.Forall (fun e : string * Z => 0 <= e.2) l).
  { intros l Hl. eapply List.Forall_impl; [|exact Hl]. intros e He. simpl in He. lia. }
  assert (Hsplit : sum_counts ranking
                   = sum_counts (take top_n ranking) + sum_counts (drop top_n ranking)).
  { rewrite <- sum_counts_app, take_drop. reflexivity. }
  assert (Htake : List.Forall (fun e => 1 <= e.2) (take top_n ranking)).
  { apply List.Forall_forall. intros e He. rewrite List.Forall_forall in Hpos. apply Hpos.
    rewrite <- (take_drop top_n ranking). apply in_app_iff. left. exact He. }
  assert (Hdrop : List.Forall (fun e => 1 <= e.2) (drop top_n ranking)).
  { apply List.Forall_forall. intros e He. rewrite List.Forall_forall in Hpos. apply Hpos.
    rewrite <- (take_drop top_n ranking). apply in_app_iff. right. exact He. }
  pose proof (sum_counts_nonneg _ (Hnn _ Hdrop)) as Hd0.
  pose proof (keyword_words_length text) as Hwords.
  split; [lia|]. split; [exact Hwords|]. split.
  - apply List.Forall_forall. intros e He.
    pose proof (sum_counts_member _ e (Hnn _ Htake) He).
    rewrite List.Forall_forall in Htake. specialize (Htake e He). simpl in Htake. lia.
  - intros Hall. rewrite take_ge by lia. exact Hsum.
Qed.

Lemma filter_nil_iff {A : Type} (f : A -> bool) (l : list A) :
  List.filter f l = [] <-> forall x, In x l -> f x = false.
Proof.
  induction l as [|a l IH]; simpl.
  - split; [intros _ x []|reflexivity].
  - destruct (f a) eqn:Ha.
    + split; [discriminate|]. intros Hall. rewrite (Hall a) in Ha by (left; reflexivity).
      discriminate Ha.
    + rewrite IH. split.
      * intros Hall x [<- | Hin]; [exact Ha | apply Hall, Hin].
      * intros Hall x Hin. apply Hall. right. exact Hin.
Qed.

(** X12.  The result is empty exactly when no keyword was asked for or no word is
    kept; and no word is kept exactly when every token of the page, reduced
    to its letters in lower case, is a stop word or has at most 3 letters. *)
Theorem no_keywords text top_n :
  (extract_keywords text top_n = [] <-> top_n = 0%nat \/ keyword_words text = []) /\
  (keyword_words text = [] <->
   forall tok word, In tok (Py.split text) -> clean_token tok = Some word ->
                    word ∈ stop_words \/ Py.len word <= 3).
Proof.
  split.
  - rewrite extract_keywords_take.
    destruct (ranking_spec (keyword_words text)) as (_ & Hin & _). cbv zeta in Hin.
    split.
    + intros Hnil. destruct top_n as [|n]; [left; reflexivity|]. right.
      destruct (keyword_words text) as [|w ws] eqn:Hw; [reflexivity|].
      destruct (Counter.sorted_desc (Counter.of_list (w :: ws))) as [|e l] eqn:Hr;
        [|discriminate Hnil].
      destruct (proj2 (Hin w (occurrences w (w :: ws)))) as [].
      split; [left; reflexivity | reflexivity].
    + intros [-> | ->]; [apply take_0 | destruct top_n; reflexivity].
  - unfold keyword_words. cbv zeta. rewrite cleaned_tokens, filter_nil_iff. split.
    + intros Hall tok word Htok Hclean.
      assert (Hin : In word (omap clean_token (Py.split text))).
      { apply list_elem_of_In, list_elem_of_omap. exists tok.
        split; [apply list_elem_of_In, Htok | exact Hclean]. }
      specialize (Hall word Hin).
      destruct (decide (word ∈ stop_words)) as [Hs|Hs]; [left; exact Hs|]. right.
      destruct (Z_lt_le_dec 3 (Py.len word)) as [Hlen|Hlen]; [|exact Hlen].
      rewrite (proj2 (is_keyword_spec word)) in Hall by (split; assumption).
      discriminate Hall.
    + intros Hall word Hin.
      apply list_elem_of_In, list_elem_of_omap in Hin as (tok & Htok & Hclean).
      apply list_elem_of_In in Htok.
      destruct (is_keyword word) eqn:Hk; [|reflexivity].
      apply is_keyword_spec in Hk as [Hs Hlen].
      destruct (Hall tok word Htok Hclean) as [Hin | Hle]; [destruct (Hs Hin) | lia].
Qed.

End KeywordFacts.

(** ** The threshold of the alt-text check *)

Section AltThreshold.

Implicit Types (s : ImageStats) (t w : Z).

Lemma int_gt_floor w t m :
  alt_floor t = Some m ->
  PyFloat.int_gt w (PyFloat.mul (PyFloat.of_int t) PyFloat.lit_0_7) = (m <? w).
Proof.
  unfold alt_floor, PyFloat.int_gt.
  destruct (PyFloat.mul (PyFloat.of_int t) PyFloat.lit_0_7) as [sg | sg | | sg mt e] eqn:Hx;
    try discriminate.
  - simpl. intros [= <-]. f_equal; lia.
  - destruct (PyFloat.as_ratio (S754_finite sg mt e)) as [[n d]|]; [|discriminate].
    destruct (0 <? d) eqn:Hd; [|discriminate]. intros [= <-].
    apply Z.ltb_lt in Hd.
    pose proof (Z.div_mod n d ltac:(lia)) as Hdiv.
    pose proof (Z.mod_pos_bound n d Hd) as Hmod.
    destruct (n <? w * d) eqn:H1; destruct (n / d <? w) eqn:H2; try reflexivity;
      rewrite ?Z.ltb_lt, ?Z.ltb_ge in *; nia.
Qed.

Lemma alt_floor_table :
  forallb alt_floor_expected (map Z.of_nat (seq 1 (Z.to_nat 10000))) = true.
Proof. vm_compute. reflexivity. Qed.

Lemma alt_floor_spec t :
  0 < t <= 10000 ->
  alt_floor t = Some (if rounds_below t then 7 * t / 10 - 1 else 7 * t / 10).
Proof.
  intros Ht. pose proof alt_floor_table as Htable.
  rewrite forallb_forall in Htable. specialize (Htable t).
  unfold alt_floor_expected in Htable.
  destruct (alt_floor t) as [m|].
  - f_equal. apply Z.eqb_eq, Htable.
    apply in_map_iff. exists (Z.to_nat t). split; [lia|]. apply in_seq. lia.
  - discriminate Htable.
    apply in_map_iff. exists (Z.to_nat t). split; [lia|]. apply in_seq. lia.
Qed.

(** X13.  For a page with at most 10000 images both scripts pass the check
    "Images have alt tags" when more than 70% of the images have a non-empty
    alt, and fail it when less than 70% have one.  At exactly 70% the outcome
    depends on the rounding of [total * 0.7]: the check fails when the
    product is exact or rounded up, and passes when it is rounded below,
    which happens for the totals above 5/2 times the largest power of two
    that is not above the number of images with alt (63 of 90 passes, 7 of
    10 does not). *)
Theorem alt_check_threshold s :
  0 < total s <= 10000 ->
  ItcWebsiteAnalyzer.images_have_alt s = WebsiteAnalyzer.images_have_alt s /\
  (7 * total s < 10 * with_alt s -> WebsiteAnalyzer.images_have_alt s = true) /\
  (10 * with_alt s < 7 * total s -> WebsiteAnalyzer.images_have_alt s = false) /\
  (10 * with_alt s = 7 * total s ->
   WebsiteAnalyzer.images_have_alt s = true <-> 5 * 2 ^ Z.log2 (with_alt s) < 2 * total s).
Proof.
  intros Ht.
  assert (Hguard : WebsiteAnalyzer.images_have_alt s = ItcWebsiteAnalyzer.images_have_alt s).
  { unfold WebsiteAnalyzer.images_have_alt.
    rewrite (proj2 (Z.ltb_lt 0 (total s))) by lia. reflexivity. }
  rewrite Hguard. split; [reflexivity|].
  unfold ItcWebsiteAnalyzer.images_have_alt.
  rewrite (int_gt_floor _ _ _ (alt_floor_spec (total s) Ht)).
  unfold rounds_below.
  split; [|split].
  - intros Hw. apply Z.ltb_lt.
    destruct ((total s mod 10 =? 0) && _); Z.div_mod_to_equations; lia.
  - intros Hw. apply Z.ltb_ge.
    destruct (total s mod 10 =? 0) eqn:Hmod; simpl.
    + apply Z.eqb_eq in Hmod.
      destruct (_ <? _); Z.div_mod_to_equations; lia.
    + Z.div_mod_to_equations; lia.
  - intros Hw.
    assert (Hdiv : 7 * total s / 10 = with_alt s) by (Z.div_mod_to_equations; lia).
    assert (Hmod : total s mod 10 = 0) by (Z.div_mod_to_equations; lia).
    rewrite Hdiv, Hmod. simpl.
    destruct (5 * 2 ^ Z.log2 (with_alt s) <? 2 * total s) eqn:Hb.
    + rewrite Z.ltb_lt in *. split; [intros _; exact Hb | intros _; lia].
    + rewrite Z.ltb_ge in Hb. rewrite Z.ltb_lt. lia.
Qed.

Lemma alt_check_threshold_witness :
  let s := {| total := 90; with_alt := 63; without_alt := 27 |} in
  0 < total s <= 10000 /\
  10 * with_alt s = 7 * total s /\
  WebsiteAnalyzer.images_have_alt s = true.
Proof.
  cbv zeta. split; [simpl; lia|]. split; [reflexivity|].
  apply (alt_check_threshold {| total := 90; with_alt := 63; without_alt := 27 |});
    [simpl; lia | reflexivity | vm_compute; reflexivity].
Defined.

(** All the images of a page with at most 10000 images having alt, the
    check passes when there is an image. *)
Lemma all_with_alt_passes s :
  0 < total s <= 10000 -> with_alt s = total s ->
  WebsiteAnalyzer.images_have_alt s = true.
Proof.
  intros Ht Hw. unfold WebsiteAnalyzer.images_have_alt.
  rewrite (proj2 (Z.ltb_lt 0 (total s))) by lia.
  rewrite (int_gt_floor _ _ _ (alt_floor_spec (total s) Ht)), Hw.
  apply Z.ltb_lt. destruct (rounds_below (total s)); Z.div_mod_to_equations; lia.
Qed.

(** X14.  A page the recommender finds nothing to say about passes every check of
    the checklist, except that a page without any image fails the last one:
    the score shown is 100% with an image and 83% without. *)
Theorem no_recommendation_score (doc : soup) load_time website_url :
  total (analyze_images doc) <= 10000 ->
  WebsiteAnalyzer.recommendations (extract_meta_tags doc) (extract_headings doc)
    (analyze_images doc) load_time website_url = Some [] ->
  let cs := WebsiteAnalyzer.checks (extract_meta_tags doc) (analyze_images doc) website_url in
  let score := WebsiteAnalyzer.seo_score (extract_meta_tags doc) (analyze_images doc) website_url in
  (forall check passed, In (check, passed) cs ->
                        check <> "Images have alt tags" -> passed = true) /\
  (find_all doc "img" <> [] -> count_passed cs = 6 /\ WebsiteAnalyzer.score_text score = "100%") /\
  (find_all doc "img" = [] -> count_passed cs = 5 /\ WebsiteAnalyzer.score_text score = "83%").
Proof.
  intros Hmany Hrecs.
  assert (Hh1 : extract_headings doc !! "h1"
                = Some (map (fun tag => Py.strip (text tag)) (find_all doc "h1")))
    by (apply extract_headings_lookup; set_solver).
  rewrite (recommendations_rules _ _ _ _ _ _ Hh1) in Hrecs.
  assert (Hnil : map snd (List.filter fst
                    (rules (extract_meta_tags doc)
                       (map (fun tag => Py.strip (text tag)) (find_all doc "h1"))
                       (analyze_images doc) load_time website_url)) = [])
    by congruence.
  clear Hrecs. apply no_rule_triggered in Hnil. unfold rules in Hnil.
  apply Forall_cons in Hnil as [Htitle Hnil]. apply Forall_cons in Hnil as [Hdesc Hnil].
  apply Forall_cons in Hnil as [_ Hnil]. apply Forall_cons in Hnil as [Halt Hnil].
  apply Forall_cons in Hnil as [_ Hnil]. apply Forall_cons in Hnil as [Hssl _].
  cbn [fst] in Htitle, Hdesc, Halt, Hssl.
  apply bool_decide_eq_false in Htitle, Hdesc, Halt. apply negb_false_iff in Hssl.
  destruct (length_fields doc) as [Htl Hdl].
  set (meta_data := extract_meta_tags doc) in *.
  set (image_data := analyze_images doc) in *.
  assert (Hc1 : negb (String.eqb (title meta_data) "No title found") = true).
  { apply negb_true_iff, String.eqb_neq. intros Heq. rewrite Heq in Htl.
    change (Py.len "No title found") with 14 in Htl. lia. }
  assert (Hc2 : between 30 (title_length meta_data) 60 = true).
  { unfold between. apply andb_true_iff. rewrite !Z.leb_le. lia. }
  assert (Hc3 : negb (String.eqb (description meta_data) "No description found") = true).
  { apply negb_true_iff, String.eqb_neq. intros Heq. rewrite Heq in Hdl.
    change (Py.len "No description found") with 20 in Hdl. lia. }
  assert (Hc4 : between 120 (description_length meta_data) 160 = true).
  { unfold between. apply andb_true_iff. rewrite !Z.leb_le. lia. }
  assert (Htotal : total image_data = Z.of_nat (length (find_all doc "img"))) by reflexivity.
  assert (Hsum : without_alt image_data = total image_data - with_alt image_data) by reflexivity.
  pose proof (with_alt_bounds doc) as Hbounds. fold image_data in Hbounds.
  assert (Hall : with_alt image_data = total image_data) by lia.
  cbv zeta. unfold WebsiteAnalyzer.seo_score, WebsiteAnalyzer.checks.
  rewrite Hc1, Hc2, Hc3, Hc4, Hssl.
  split; [|split].
  - intros check passed Hin Hname. simpl in Hin.
    destruct Hin as [Hin | [Hin | [Hin | [Hin | [Hin | [Hin | []]]]]]];
      injection Hin as <- <-; first [reflexivity | destruct Hname; reflexivity].
  - intros Himg.
    rewrite (all_with_alt_passes image_data); [split; vm_compute; reflexivity | | exact Hall].
    destruct (find_all doc "img"); [destruct Himg; reflexivity | simpl length in *; lia].
  - intros Himg.
    assert (Hlast : WebsiteAnalyzer.images_have_alt image_data = false).
    { unfold WebsiteAnalyzer.images_have_alt. rewrite Htotal, Himg. reflexivity. }
    rewrite Hlast. split; vm_compute; reflexivity.
Qed.

Lemma no_recommendation_score_witness :
  WebsiteAnalyzer.recommendations (extract_meta_tags tidy_page) (extract_headings tidy_page)
    (analyze_images tidy_page) (PyFloat.of_int 1) "https://example.com" = Some [] /\
  WebsiteAnalyzer.score_text
    (WebsiteAnalyzer.seo_score (extract_meta_tags tidy_page) (analyze_images tidy_page)
       "https://example.com") = "100%".
Proof.
  split; [vm_compute; reflexivity|].
  apply (no_recommendation_score tidy_page (PyFloat.of_int 1) "https://example.com").
  - vm_compute. discriminate.
  - vm_compute. reflexivity.
  - vm_compute. discriminate.
Defined.

End AltThreshold.

(** ** The display name of the site *)

Section DomainName.

Import WebsiteAnalyzer.

Context `{!Urllib} `{!UrllibPath}.

Implicit Types (c : ascii) (l label rest cur : list ascii).

Lemma starts_with_spec (p l : list ascii) :
  Py.starts_with p l = true <-> exists r, l = p ++ r.
Proof.
  revert l. induction p as [|a p IH]; intros l; simpl.
  - split; [intros _; exists l; reflexivity | reflexivity].
  - destruct l as [|b l].
    + split; [discriminate | intros [r Hr]; discriminate Hr].
    + rewrite andb_true_iff, Ascii.eqb_eq, IH. split.
      * intros [-> [r ->]]. exists r. reflexivity.
      * intros [r [= -> ->]]. split; [reflexivity | exists r; reflexivity].
Qed.

Lemma ends_with_spec (suffix l : list ascii) :
  ends_with suffix l = true <-> exists p, l = p ++ suffix.
Proof.
  unfold ends_with. rewrite starts_with_spec. split.
  - intros [r Hr]. exists (rev r).
    rewrite <- (rev_involutive l), Hr, rev_app_distr, rev_involutive. reflexivity.
  - intros [p ->]. exists (rev p). apply rev_app_distr.
Qed.

Lemma ends_with_tail (suffix l : list ascii) c :
  ends_with suffix (c :: l) = false -> ends_with suffix l = false.
Proof.
  intros Hc. destruct (ends_with suffix l) eqn:Hl; [|reflexivity].
  apply ends_with_spec in Hl as [p ->].
  rewrite (proj2 (ends_with_spec suffix (c :: p ++ suffix))) in Hc; [discriminate Hc|].
  exists (c :: p). reflexivity.
Qed.

(** An occurrence of 'www.' has a dot in the fourth place. *)
Lemma www_match l :
  Py.starts_with (Py.chars "www.") l = true ->
  exists r, l = "w"%char :: "w"%char :: "w"%char :: "."%char :: r.
Proof. intros Hm. apply starts_with_spec in Hm as [r ->]. exists r. reflexivity. Qed.

Lemma replace_go_unfold (old new : list ascii) c l :
  Py.replace_go old new 0 (c :: l)
  = if Py.starts_with old (c :: l) then new ++ Py.replace_go old new (length old - 1) l
    else c :: Py.replace_go old new 0 l.
Proof. reflexivity. Qed.

(** No occurrence starts in a label without a dot that does not end with
    'www'. *)
Lemma replace_go_label label rest :
  no_dot label -> ends_with (Py.chars "www") label = false ->
  Py.replace_go (Py.chars "www.") [] 0 (label ++ "."%char :: rest)
  = label ++ "."%char :: Py.replace_go (Py.chars "www.") [] 0 rest.
Proof.
  induction label as [|c l IH]; intros Hdot Hend; [reflexivity|].
  apply Forall_cons in Hdot as [Hc Hl].
  change ((c :: l) ++ "."%char :: rest) with (c :: (l ++ "."%char :: rest)).
  rewrite replace_go_unfold.
  destruct (Py.starts_with _ _) eqn:Hm.
  - exfalso. apply www_match in Hm as [r Hm].
    destruct l as [|c1 [|c2 [|c3 l3]]]; simpl in Hm; try discriminate Hm.
    + injection Hm as -> -> -> _. vm_compute in Hend. discriminate Hend.
    + injection Hm as _ _ _ -> _.
      apply Forall_cons in Hl as [_ Hl]. apply Forall_cons in Hl as [_ Hl].
      apply Forall_cons in Hl as [Hl _]. apply Hl. reflexivity.
  - rewrite IH; [reflexivity | exact Hl | exact (ends_with_tail _ _ _ Hend)].
Qed.

(** 'www.' is removed after a run without a dot. *)
Lemma replace_go_www l rest :
  no_dot l ->
  Py.replace_go (Py.chars "www.") [] 0 (l ++ Py.chars "www." ++ rest)
  = l ++ Py.replace_go (Py.chars "www.") [] 0 rest.
Proof.
  induction l as [|c l IH]; intros Hdot; [reflexivity|].
  apply Forall_cons in Hdot as [Hc Hl].
  change ((c :: l) ++ Py.chars "www." ++ rest) with (c :: (l ++ Py.chars "www." ++ rest)).
  rewrite replace_go_unfold.
  destruct (Py.starts_with _ _) eqn:Hm.
  - exfalso. apply www_match in Hm as [r Hm].
    destruct l as [|c1 [|c2 [|c3 l3]]]; simpl in Hm; try discriminate Hm.
    injection Hm as _ _ _ -> _.
    apply Forall_cons in Hl as [_ Hl]. apply Forall_cons in Hl as [_ Hl].
    apply Forall_cons in Hl as [Hl _]. apply Hl. reflexivity.
  - rewrite IH by exact Hl. reflexivity.
Qed.

(** Nothing is removed from a run without a dot. *)
Lemma replace_go_no_dot l :
  no_dot l -> Py.replace_go (Py.chars "www.") [] 0 l = l.
Proof.
  induction l as [|c l IH]; intros Hdot; [reflexivity|].
  apply Forall_cons in Hdot as [Hc Hl].
  rewrite replace_go_unfold.
  destruct (Py.starts_with _ _) eqn:Hm.
  - exfalso. apply www_match in Hm as [r Hm].
    injection Hm as _ Hm. subst l.
    apply Forall_cons in Hl as [_ Hl]. apply Forall_cons in Hl as [_ Hl].
    apply Forall_cons in Hl as [Hl _]. apply Hl. reflexivity.
  - rewrite IH by exact Hl. reflexivity.
Qed.

Lemma split_sep_go_unfold cur c l :
  Py.split_sep_go ["."%char] 0 cur (c :: l)
  = if Ascii.eqb "." c then Py.str (rev cur) :: Py.split_sep_go ["."%char] 0 [] l
    else Py.split_sep_go ["."%char] 0 (c :: cur) l.
Proof.
  change (Py.split_sep_go ["."%char] 0 cur (c :: l))
    with (if Ascii.eqb "." c && true
          then Py.str (rev cur) :: Py.split_sep_go ["."%char] 0 [] l
          else Py.split_sep_go ["."%char] 0 (c :: cur) l).
  rewrite andb_true_r. reflexivity.
Qed.

Lemma not_dot_eqb c : c <> "."%char -> Ascii.eqb "." c = false.
Proof. intros Hc. apply Ascii.eqb_neq. intros Heq. apply Hc. symmetry. exact Heq. Qed.

(** The first field of [split('.')] is what comes before the first dot. *)
Lemma split_sep_go_label cur label rest :
  no_dot label ->
  Py.split_sep_go ["."%char] 0 cur (label ++ "."%char :: rest)
  = Py.str (rev cur ++ label) :: Py.split_sep_go ["."%char] 0 [] rest.
Proof.
  revert cur. induction label as [|c l IH]; intros cur Hdot.
  - simpl app. rewrite split_sep_go_unfold, app_nil_r. reflexivity.
  - apply Forall_cons in Hdot as [Hc Hl].
    change ((c :: l) ++ "."%char :: rest) with (c :: (l ++ "."%char :: rest)).
    rewrite split_sep_go_unfold, (not_dot_eqb c Hc), (IH (c :: cur) Hl).
    simpl rev. rewrite <- app_assoc. reflexivity.
Qed.

Lemma split_sep_go_no_dot cur l :
  no_dot l -> Py.split_sep_go ["."%char] 0 cur l = [Py.str (rev cur ++ l)].
Proof.
  revert cur. induction l as [|c l IH]; intros cur Hdot.
  - simpl. rewrite app_nil_r. reflexivity.
  - apply Forall_cons in Hdot as [Hc Hl].
    rewrite split_sep_go_unfold, (not_dot_eqb c Hc), (IH (c :: cur) Hl).
    simpl rev. rewrite <- app_assoc. reflexivity.
Qed.

(** What [get_domain_name] computes from [parsed.netloc or parsed.path]. *)
Lemma get_domain_name_unfold url parsed path :
  urlparse url = Some parsed -> urlparse_path url = Some path ->
  get_domain_name url
  = first ← head (Py.split_sep_go ["."%char] 0 []
                    (Py.replace_go (Py.chars "www.") [] 0
                       (Py.chars (if String.eqb (netloc parsed) "" then path else netloc parsed))));
    Py.upper first.
Proof.
  intros Hparsed Hpath. unfold get_domain_name. rewrite Hparsed, Hpath. simpl.
  unfold Py.replace, Py.split_sep. simpl (Py.chars "www."). simpl (Py.chars "").
  simpl (Py.chars "."). cbv iota. rewrite chars_str. reflexivity.
Qed.

(** X15.  The display name is the first label of the host, in upper case: what
    comes before the first dot, without 'www.' wherever it occurs before that
    dot (so not only at the start), when the label itself does not end with
    'www'; and the whole host when it has no dot. *)
Theorem get_domain_name_label url parsed path :
  urlparse url = Some parsed -> urlparse_path url = Some path ->
  let domain := if String.eqb (netloc parsed) "" then path else netloc parsed in
  (forall label rest,
     Py.chars domain = label ++ "."%char :: rest ->
     no_dot label -> ends_with (Py.chars "www") label = false ->
     get_domain_name url = Py.upper (Py.str label)) /\
  (forall l label rest,
     Py.chars domain = l ++ Py.chars "www." ++ label ++ "."%char :: rest ->
     no_dot l -> no_dot label -> ends_with (Py.chars "www") label = false ->
     get_domain_name url = Py.upper (Py.str (l ++ label))) /\
  (no_dot (Py.chars domain) -> get_domain_name url = Py.upper domain).
Proof.
  intros Hparsed Hpath domain.
  rewrite (get_domain_name_unfold url parsed path Hparsed Hpath). fold domain.
  split; [|split].
  - intros label rest -> Hdot Hend.
    rewrite (replace_go_label label rest Hdot Hend), (split_sep_go_label [] label _ Hdot).
    reflexivity.
  - intros l label rest -> Hl Hdot Hend.
    rewrite (replace_go_www l _ Hl), (replace_go_label label rest Hdot Hend), app_assoc.
    rewrite (split_sep_go_label [] (l ++ label)); [reflexivity|].
    apply Forall_app. split; assumption.
  - intros Hdot.
    rewrite (replace_go_no_dot _ Hdot), (split_sep_go_no_dot [] _ Hdot).
    simpl. rewrite str_chars. reflexivity.
Qed.

(** The fields of [split('.')] hold no dot, and no character that is not in
    the string. *)
Lemma split_sep_go_fields cur l :
  no_dot cur ->
  Forall (fun field => Forall (fun c => c <> "."%char /\ (In c cur \/ In c l)) (Py.chars field))
    (Py.split_sep_go ["."%char] 0 cur l).
Proof.
  assert (Hcur : forall cur l, no_dot cur ->
            Forall (fun c => c <> "."%char /\ (In c cur \/ In c l)) (Py.chars (Py.str (rev cur)))).
  { intros cur0 l0 Hdot. rewrite chars_str. apply List.Forall_forall. intros c Hc.
    apply in_rev in Hc. unfold no_dot in Hdot. rewrite List.Forall_forall in Hdot.
    split; [apply Hdot, Hc | left; exact Hc]. }
  revert cur. induction l as [|c l IH]; intros cur Hdot.
  - constructor; [exact (Hcur cur [] Hdot) | constructor].
  - rewrite split_sep_go_unfold. destruct (Ascii.eqb "." c) eqn:Hc.
    + constructor; [apply Hcur, Hdot|].
      eapply List.Forall_impl; [|apply (IH []); constructor].
      intros field Hfield. eapply List.Forall_impl; [|exact Hfield].
      intros x [Hx [[] | Hin]]. split; [exact Hx | right; right; exact Hin].
    + apply Ascii.eqb_neq in Hc.
      eapply List.Forall_impl; [|apply (IH (c :: cur))].
      * intros field Hfield. eapply List.Forall_impl; [|exact Hfield].
        intros x [Hx [[<- | Hin] | Hin]]; (split; [exact Hx|]).
        -- right; left; reflexivity.
        -- left; exact Hin.
        -- right; right; exact Hin.
      * constructor; [|exact Hdot]. intros ->. apply Hc. reflexivity.
Qed.

(** Removing a substring adds no character. *)
Lemma replace_go_subset (old : list ascii) (skip : nat) l c :
  In c (Py.replace_go old [] skip l) -> In c l.
Proof.
  revert skip. induction l as [|x l IH]; intros skip Hin; [exact Hin|].
  destruct skip as [|k].
  - rewrite replace_go_unfold in Hin.
    destruct (Py.starts_with old (x :: l)).
    + right. exact (IH _ Hin).
    + destruct Hin as [<- | Hin]; [left; reflexivity | right; exact (IH _ Hin)].
  - right. exact (IH _ Hin).
Qed.

Lemma upper_char_shape c (l : list ascii) :
  Py.upper_char c = Some l -> c <> "."%char ->
  Forall (fun x => x <> "."%char /\ Py.is_ascii_lower x = false) l.
Proof.
  intros Hup Hc.
  destruct c as [[] [] [] [] [] [] [] []]; vm_compute in Hup;
    first [discriminate Hup | injection Hup as <-];
    first [exfalso; apply Hc; reflexivity
          | repeat constructor; first [discriminate | vm_compute; reflexivity]].
Qed.

Lemma upper_char_ascii c :
  (Py.ord c <? 128)%N = true -> is_Some (Py.upper_char c).
Proof.
  destruct c as [[] [] [] [] [] [] [] []]; vm_compute; intros Hc;
    first [discriminate Hc | eexists; reflexivity].
Qed.

Lemma upper_shape (s name : string) :
  Py.upper s = Some name -> no_dot (Py.chars s) ->
  Forall (fun x => x <> "."%char /\ Py.is_ascii_lower x = false) (Py.chars name).
Proof.
  unfold Py.upper. destruct (mapM Py.upper_char (Py.chars s)) as [css|] eqn:Hm; [|discriminate].
  simpl. intros [= <-] Hdot. rewrite chars_str.
  apply mapM_Some_1 in Hm. unfold no_dot in Hdot.
  induction Hm as [|c l cs css Hc _ IH]; [constructor|].
  apply Forall_cons in Hdot as [Hdot Hrest].
  simpl. apply Forall_app. split; [exact (upper_char_shape c l Hc Hdot) | exact (IH Hrest)].
Qed.

(** X16.  The display name has no dot and none of the letters a to z; and the
    function returns a name for every URL that parses to a host in ASCII:
    [split] always yields a first field. *)
Theorem get_domain_name_shape url :
  (forall name,
     get_domain_name url = Some name ->
     Forall (fun c => c <> "."%char /\ Py.is_ascii_lower c = false) (Py.chars name)) /\
  (forall parsed path,
     urlparse url = Some parsed -> urlparse_path url = Some path ->
     let domain := if String.eqb (netloc parsed) "" then path else netloc parsed in
     Forall (fun c => (Py.ord c <? 128)%N = true) (Py.chars domain) ->
     is_Some (get_domain_name url)).
Proof.
  assert (Hfirst : forall l, exists first,
            head (Py.split_sep_go ["."%char] 0 [] l) = Some first /\
            Forall (fun c => c <> "."%char /\ In c l) (Py.chars first)).
  { intros l. pose proof (split_sep_go_fields [] l ltac:(constructor)) as Hfields.
    destruct (Py.split_sep_go ["."%char] 0 [] l) as [|first fields] eqn:Hs.
    - exfalso. destruct l as [|c l]; [discriminate Hs|].
      rewrite split_sep_go_unfold in Hs. destruct (Ascii.eqb "." c); [discriminate Hs|].
      clear Hfields. revert Hs. generalize [c]. induction l as [|x l IH]; intros cur Hs.
      + discriminate Hs.
      + rewrite split_sep_go_unfold in Hs. destruct (Ascii.eqb "." x); [discriminate Hs|].
        exact (IH _ Hs).
    - exists first. split; [reflexivity|].
      apply Forall_cons in Hfields as [Hfield _].
      eapply List.Forall_impl; [|exact Hfield].
      intros c [Hc [[] | Hin]]. split; assumption. }
  split.
  - intros name Hname.
    destruct (urlparse url) as [parsed|] eqn:Hparsed;
      [|unfold get_domain_name in Hname; rewrite Hparsed in Hname; discriminate Hname].
    destruct (urlparse_path url) as [path|] eqn:Hpath;
      [|unfold get_domain_name in Hname; rewrite Hparsed, Hpath in Hname; discriminate Hname].
    rewrite (get_domain_name_unfold url parsed path Hparsed Hpath) in Hname.
    destruct (Hfirst (Py.replace_go (Py.chars "www.") [] 0
                (Py.chars (if String.eqb (netloc parsed) "" then path else netloc parsed))))
      as (first & Hhead & Hchars).
    rewrite Hhead in Hname. simpl in Hname.
    apply (upper_shape first name Hname).
    eapply List.Forall_impl; [|exact Hchars]. intros c [Hc _]. exact Hc.
  - intros parsed path Hparsed Hpath domain Hascii.
    rewrite (get_domain_name_unfold url parsed path Hparsed Hpath). fold domain.
    destruct (Hfirst (Py.replace_go (Py.chars "www.") [] 0 (Py.chars domain)))
      as (first & Hhead & Hchars).
    rewrite Hhead. simpl. unfold Py.upper.
    assert (Hup : is_Some (mapM Py.upper_char (Py.chars first))).
    { apply mapM_is_Some_2. apply List.Forall_forall. intros c Hc.
      rewrite List.Forall_forall in Hchars. destruct (Hchars c Hc) as [_ Hin].
      apply replace_go_subset in Hin.
      rewrite List.Forall_forall in Hascii. apply upper_char_ascii, Hascii, Hin. }
    destruct Hup as [css ->]. simpl. eexists. reflexivity.
Qed.

End DomainName.

Lemma get_domain_name_label_witness :
  @WebsiteAnalyzer.get_domain_name example_urllib example_urllib_path
    "https://www.example.com/about"
  = Some "EXAMPLE".
Proof.
  destruct (@get_domain_name_label example_urllib example_urllib_path
              "https://www.example.com/about" {| netloc := "www.example.com" |} "/about"
              eq_refl eq_refl) as (_ & Hwww & _).
  apply (Hwww [] (Py.chars "example") (Py.chars "com")).
  - reflexivity.
  - constructor.
  - repeat constructor; discriminate.
  - reflexivity.
Defined.
